(** * Coastal threat alert system: alert lifecycle and report pipeline

    A shallow embedding of the Express handlers of [backend/routes/alerts.js]
    and [backend/routes/reports.js], of [sendPushNotification] from
    [backend/services/notificationService.js] and of the Mongoose schemas of
    [backend/models/index.js], followed by the properties of the design
    document that concern them.

    Conventions.
    - A collection is a finite map from document ids to documents.
    - Times are milliseconds since the epoch, as [Date.now()] gives them.  One
      handler invocation observes one clock value [now].
    - A JavaScript number that is only stored and compared (coordinates,
      confidence, radius) is a rational; the one place where the code does
      floating-point arithmetic on fractions, the points formula, is modelled
      in IEEE 754 binary64 through [SpecFloat].
    - [await] is sequential composition; the calls gathered by [Promise.all]
      are run in list order.
    - The database removes an alert some time after its [expiresAt] (the
      schema puts a TTL index on it); the collections here keep it, and only
      the active-alerts query looks at the expiry. *)

From Stdlib Require Import ZArith QArith Qround Bool List String Ascii Lia.
From Stdlib Require Import Floats.SpecFloat.
From stdpp Require Import base option list gmap sorting.

Local Open Scope Z_scope.

(** ** JavaScript values and numbers *)

Module Js.

(** binary64: 53 bits of precision, exponents up to 1024. *)
Definition prec : Z := 53.
Definition emax : Z := 1024.

Definition of_Z (z : Z) : spec_float := binary_normalize prec emax z 0 false.
Definition mul : spec_float -> spec_float -> spec_float := SFmul prec emax.
Definition div : spec_float -> spec_float -> spec_float := SFdiv prec emax.

(** The double a decimal literal [n/d] denotes: the correctly rounded
    quotient, e.g. [decimal 12 10] for the literal [1.2]. *)
Definition decimal (n d : Z) : spec_float := div (of_Z n) (of_Z d).

(** [Math.floor]; [None] stands for NaN and the infinities. *)
Definition floor (x : spec_float) : option Z :=
  match x with
  | S754_zero _ => Some 0
  | S754_finite s m e =>
      let n := if s then Z.neg m else Z.pos m in
      Some (if 0 <=? e then n * 2 ^ e else n / 2 ^ (- e))
  | S754_infinity _ | S754_nan => None
  end.

(** [a >= b] on doubles. *)
Definition geb (a b : spec_float) : bool := SFleb b a.

(** Truthiness of a numeric property that may be absent: [undefined], [0]
    and NaN are falsy.  A JSON body holds no NaN, so a present number is
    falsy exactly when it is zero. *)
Definition truthy_num (x : option Q) : bool :=
  match x with
  | Some q => negb (Qeq_bool q 0)
  | None => false
  end.

(** Truthiness of a string property that may be absent. *)
Definition truthy_str (x : option string) : bool :=
  match x with
  | Some EmptyString | None => false
  | Some _ => true
  end.

(** [x > y] where [x] may be [undefined]: [undefined > y] is [false]. *)
Definition gt (x : option Q) (y : Q) : bool :=
  match x with
  | Some q => negb (Qle_bool q y)
  | None => false
  end.

(** [x < y] where [x] may be [undefined]. *)
Definition lt (x : option Q) (y : Q) : bool :=
  match x with
  | Some q => negb (Qle_bool y q)
  | None => false
  end.

Definition upper_ascii (c : ascii) : ascii :=
  let n := nat_of_ascii c in
  if ((97 <=? n) && (n <=? 122))%nat then ascii_of_nat (n - 32) else c.

(** [s.toUpperCase()] on ASCII text. *)
Fixpoint toUpperCase (s : string) : string :=
  match s with
  | EmptyString => EmptyString
  | String c r => String (upper_ascii c) (toUpperCase r)
  end.

(** [s.charAt(0).toUpperCase() + s.slice(1)]. *)
Definition capitalize (s : string) : string :=
  match s with
  | EmptyString => EmptyString
  | String c r => String (upper_ascii c) r
  end.

(** The text between double quotes. *)
Definition quoted (s : string) : string :=
  String (ascii_of_nat 34) (String.append s (String (ascii_of_nat 34) EmptyString)).

(** Lookup in an object literal used as a table. *)
Fixpoint prop {A} (table : list (string * A)) (key : string) : option A :=
  match table with
  | [] => None
  | (k, v) :: rest => if String.eqb k key then Some v else prop rest key
  end.

(** Membership of a string in a list of strings (a schema [enum]). *)
Definition includes (l : list string) (s : string) : bool :=
  existsb (String.eqb s) l.

End Js.

(** ** Time *)

Definition HOUR : Z := 60 * 60 * 1000.
Definition DAY : Z := 24 * HOUR.

(** ** The schemas of [backend/models/index.js] *)

Abbreviation Id := N (only parsing).
Abbreviation Time := Z (only parsing).

(** A stored GeoJSON position, [coordinates: [longitude, latitude]]. *)
Record Point := mkPoint { lng : Q; lat : Q }.

Record User := mkUser {
  u_name : string;
  u_points : Z;
  u_badges : list string;
  u_geo : option Point;        (* the value at path [location.coordinates] *)
  u_push : bool;               (* preferences.notifications.push *)
  u_community : bool;          (* preferences.notifications.community *)
  u_streak : Z;
  u_lastActive : Time
}.

(** An element given for [evacuationZones]: the schema declares an array of
    sub-documents; a primitive in that array does not cast to one. *)
Inductive Zone :=
| ZonePrimitive (s : string)
| ZoneDoc (name : string) (instructions : string).

Record Alert := mkAlert {
  a_type : string;
  a_severity : string;
  a_title : string;
  a_description : string;
  a_coordinates : Point;
  a_radius : Q;
  a_duration : option string;
  a_confidence : option Q;
  a_evacuationZones : list Zone;
  a_source : string;
  a_aiPrediction : bool;
  a_active : bool;
  a_updatedAt : Time;
  a_createdAt : Time;
  a_expiresAt : option Time
}.

Record Attachment := mkAttachment {
  att_filename : string;
  att_originalName : string;
  att_mimetype : string;
  att_size : Z
}.

Record AiAnalysis := mkAi {
  ai_severity : option Q;
  ai_confidence : option Q;
  ai_tags : list string;
  ai_credibility : option Q
}.

Record Report := mkReport {
  r_userId : Id;
  r_type : string;
  r_severity : string;
  r_title : string;
  r_description : string;
  r_location : Point;
  r_attachments : list Attachment;
  r_verified : bool;
  r_aiAnalysis : option AiAnalysis;
  r_helpful : Z;               (* votes.helpful *)
  r_notHelpful : Z;            (* votes.notHelpful *)
  r_voters : list Id;          (* votes.voters *)
  r_status : string;
  r_createdAt : Time
}.

Record Notification := mkNotification {
  n_userId : Id;
  n_title : string;
  n_message : string;
  n_type : string;
  n_priority : string;
  n_subject : option Id        (* the document [actionUrl] points to *)
}.

Module Schema.

Definition alert_types : list string :=
  ["cyclone"; "tsunami"; "flood"; "pollution"; "storm_surge"; "erosion"; "other"]%string.

Definition report_types : list string :=
  ["erosion"; "pollution"; "weather"; "wildlife"; "infrastructure"; "tsunami"; "other"]%string.

Definition severities : list string :=
  ["low"; "medium"; "high"; "critical"]%string.

Definition notification_types : list string :=
  ["alert"; "report"; "achievement"; "system"; "emergency"; "weather"; "community"]%string.

(** [required: true] on a String path: absent and empty both fail. *)
Definition required (s : string) : bool :=
  negb (String.eqb s EmptyString).

Definition zone_casts (z : Zone) : bool :=
  match z with
  | ZonePrimitive _ => false
  | ZoneDoc _ _ => true
  end.

(** [confidence: { type: Number, min: 0, max: 100 }]. *)
Definition confidence_ok (c : option Q) : bool :=
  match c with
  | Some q => Qle_bool 0 q && Qle_bool q 100
  | None => true
  end.

(** What [alert.save()] checks before writing. *)
Definition validate_alert (a : Alert) : bool :=
  Js.includes alert_types (a_type a)
  && Js.includes severities (a_severity a)
  && required (a_title a)
  && required (a_description a)
  && required (a_source a)
  && confidence_ok (a_confidence a)
  && forallb zone_casts (a_evacuationZones a).

(** What [report.save()] checks before writing. *)
Definition validate_report (r : Report) : bool :=
  Js.includes report_types (r_type r)
  && Js.includes severities (r_severity r)
  && required (r_description r).

(** What [dbNotification.save()] checks before writing. *)
Definition validate_notification (n : Notification) : bool :=
  required (n_title n)
  && required (n_message n)
  && Js.includes notification_types (n_type n)
  && Js.includes severities (n_priority n).

(** The positions a [2dsphere] index accepts. *)
Definition geo_valid (p : Point) : bool :=
  Qle_bool (-180) (lng p) && Qle_bool (lng p) 180
  && Qle_bool (-90) (lat p) && Qle_bool (lat p) 90.

End Schema.

(** ** The database, the deployment and the responses *)

Inductive Event :=
| new_alert (id : Id)
| alert_updated (id : Id)
| alert_deactivated (id : Id)
| new_report (id : Id)
| auto_generated_alert (id : Id)
| notification (user : Id).

Record Db := mkDb {
  users : gmap N User;
  reports : gmap N Report;
  alerts : gmap N Alert;
  notifications : list Notification;
  emitted : list Event;         (* what went through [io.emit], oldest first *)
  next_id : N                   (* the next fresh [_id] *)
}.

Definition set_users (f : gmap N User -> gmap N User) (d : Db) : Db :=
  mkDb (f (users d)) (reports d) (alerts d) (notifications d) (emitted d) (next_id d).

Definition set_reports (f : gmap N Report -> gmap N Report) (d : Db) : Db :=
  mkDb (users d) (f (reports d)) (alerts d) (notifications d) (emitted d) (next_id d).

Definition set_alerts (f : gmap N Alert -> gmap N Alert) (d : Db) : Db :=
  mkDb (users d) (reports d) (f (alerts d)) (notifications d) (emitted d) (next_id d).

Definition add_notification (n : Notification) (d : Db) : Db :=
  mkDb (users d) (reports d) (alerts d) (notifications d ++ [n]) (emitted d) (next_id d).

Definition emit (e : Event) (d : Db) : Db :=
  mkDb (users d) (reports d) (alerts d) (notifications d) (emitted d ++ [e]) (next_id d).

Definition bump_id (d : Db) : Db :=
  mkDb (users d) (reports d) (alerts d) (notifications d) (emitted d) (N.succ (next_id d)).

(** What the code leaves to its surroundings. *)
Record Deployment := mkDeployment {
  (** whether the [2dsphere] indexes the schemas declare on [Alert] and
      [Report] are built; the database then refuses a position outside the
      valid ranges at insert, which the handlers see as a thrown error *)
  geoIndexed : bool;
  (** [$geoWithin: { $centerSphere: [center, km / 6378.1] }] on a position:
      centre, radius in kilometres, position *)
  geoWithin : Point -> Q -> Point -> bool;
  (** [new Date().setHours(0, 0, 0, 0)]: local midnight of the given instant *)
  startOfDay : Time -> Time;
  (** the helpers of [routes/reports.js] use [req], which is not among their
      parameters; this says whether a binding for it is visible to them *)
  reqInScope : bool
}.

Inductive Response :=
| Status400 (error : string)
| Status404 (error : string)
| Status500
| AlertCreated (id : Id) (a : Alert)                     (* 201 *)
| AlertJson (id : Id) (a : Alert)                        (* 200 *)
| Message (message : string)                             (* 200 *)
| AlertList (l : list (Id * Alert))                      (* 200 *)
| ReportCreated (id : Id) (pointsEarned newTotal : Z)    (* 201 *)
| VoteRecorded (helpful notHelpful : Z) (voters : list Id).

(** A location as a request carries it: [{lat, lng, accuracy, address}]. *)
Record LocationInput := mkLocation {
  loc_lat : option Q;
  loc_lng : option Q;
  loc_accuracy : option string;
  loc_address : option string
}.

(** [!loc || !loc.lat || !loc.lng] *)
Definition coordinates_missing (loc : option LocationInput) : bool :=
  match loc with
  | None => true
  | Some l => negb (Js.truthy_num (loc_lat l)) || negb (Js.truthy_num (loc_lng l))
  end.

(** [[loc.lng, loc.lat]], for a location that passed [coordinates_missing]. *)
Definition point_of (l : LocationInput) : option Point :=
  match loc_lng l, loc_lat l with
  | Some x, Some y => Some (mkPoint x y)
  | _, _ => None
  end.

Definition index_accepts (env : Deployment) (p : Point) : bool :=
  negb (geoIndexed env) || Schema.geo_valid p.

(** [{'location.coordinates': {$geoWithin: {$centerSphere: [c, km / 6378.1]}}}]
    on a user document: no match when the document has no such path. *)
Definition located_within (env : Deployment) (c : Point) (km : Q) (u : User) : bool :=
  match u_geo u with
  | Some p => geoWithin env c km p
  | None => false
  end.

(** ** [backend/services/notificationService.js] *)

Module NotificationService.

Record Message := mkMessage {
  m_title : string;
  m_message : string;
  m_type : string;
  m_priority : string;
  m_subject : option Id
}.

(** [sendPushNotification(userId, notification)]: the stored notification
    and the socket event.  The FCM attempt only fills [channels.push] of the
    notification, which the model does not carry. *)
Definition sendPushNotification (userId : Id) (m : Message) (d : Db) : bool * Db :=
  match users d !! userId with
  | None => (false, d)
  | Some user =>
      if negb (u_push user) then (false, d)
      else
        let n := mkNotification userId (m_title m) (m_message m) (m_type m)
                   (m_priority m) (m_subject m) in
        if Schema.validate_notification n
        then (true, emit (notification userId) (add_notification n d))
        else (false, d)      (* [save] throws, caught: [return false] *)
  end.

(** [sendEmergencyAlert(userId, alert)], as far as the database goes: the
    push branch stores a notification through [sendPushNotification]; the SMS
    and e-mail branches hand the text to their gateways and store nothing.
    None of the three sends throws (each catches its own errors), so the
    result is [true] exactly when the user exists. *)
Definition sendEmergencyAlert (userId alertId : Id) (alert : Alert) (d : Db) : bool * Db :=
  match users d !! userId with
  | None => (false, d)
  | Some user =>
      if u_push user
      then (true,
            (sendPushNotification userId
               (mkMessage (a_title alert) (a_description alert) "emergency" "critical"
                  (Some alertId)) d).2)
      else (true, d)
  end.

Definition batchSize : nat := 100.

(** [for (let i = ..; i < userIds.length; i += batchSize)
       batches.push(userIds.slice(i, i + batchSize))], the loop counted down
    by [fuel]. *)
Fixpoint batches_from (fuel i : nat) (userIds : list Id) : list (list Id) :=
  match fuel with
  | O => []
  | S fuel' =>
      if (i <? length userIds)%nat
      then take batchSize (drop i userIds) :: batches_from fuel' (i + batchSize) userIds
      else []
  end.

(** The batches of [sendBulkAlert]; the loop makes at most one round per
    user. *)
Definition batches (userIds : list Id) : list (list Id) :=
  batches_from (length userIds) 0 userIds.

(** [sendBulkAlert(userIds, alert)]: batch after batch, within a batch one
    [sendEmergencyAlert] per user.  The sends of one batch are started
    together and awaited with [Promise.all]; each reads only its own user and
    stores at most one notification, so running them in list order gives the
    same stored notifications up to their order. *)
Definition sendBulkAlert (userIds : list Id) (alertId : Id) (alert : Alert) (d : Db)
  : bool * Db :=
  (true,
   foldl (λ acc batch,
            foldl (λ acc' userId, (sendEmergencyAlert userId alertId alert acc').2) acc batch)
         d (batches userIds)).

(** The readings [getWeatherPriority] looks at; each may be missing. *)
Record WeatherData := mkWeatherData {
  windSpeed : option Q;
  pressure : option Q;
  waveHeight : option Q
}.

(** [getWeatherPriority(data)] *)
Definition getWeatherPriority (data : WeatherData) : string :=
  if Js.gt (windSpeed data) 100 || Js.lt (pressure data) 980 || Js.gt (waveHeight data) 5
  then "critical"
  else if Js.gt (windSpeed data) 60 || Js.lt (pressure data) 1000
          || Js.gt (waveHeight data) 3
       then "high"
       else "medium".

End NotificationService.

(** ** [backend/routes/alerts.js] *)

Module Alerts.

(** The query string of [GET /]: [lat]/[lng] parsed when both are given. *)
Record Query := mkQuery {
  q_center : option Point;
  q_radius : option Q;          (* defaults to 100 *)
  q_severity : option string;
  q_type : option string
}.

(** [if (f) query.field = f]: an absent or empty filter selects everything. *)
Definition field_filter (f : option string) (v : string) : bool :=
  if Js.truthy_str f then String.eqb (default EmptyString f) v else true.

(** [$or: [{expiresAt: {$gt: now}}, {expiresAt: {$exists: false}}]] *)
Definition unexpired (now : Time) (a : Alert) : bool :=
  match a_expiresAt a with
  | Some e => now <? e
  | None => true
  end.

Definition matches (env : Deployment) (q : Query) (now : Time) (a : Alert) : bool :=
  a_active a
  && unexpired now a
  && match q_center q with
     | Some c => geoWithin env c (default (100 : Q) (q_radius q)) (a_coordinates a)
     | None => true
     end
  && field_filter (q_severity q) (a_severity a)
  && field_filter (q_type q) (a_type a).

(** [.sort({ severity: -1, createdAt: -1 })]: [severity] is a string path,
    so the first key is the descending order of strings. *)
Definition sorts_before (x y : Id * Alert) : bool :=
  match String.compare (a_severity x.2) (a_severity y.2) with
  | Gt => true
  | Lt => false
  | Eq => a_createdAt y.2 <=? a_createdAt x.2
  end.

(** [GET /]: the documents [Alert.find(query).sort(..).limit(50)] yields.
    The decoration of each with [aiEnhancement] and [distanceFromUser]
    changes no stored alert and selects nothing. *)
Definition SortsBefore (x y : Id * Alert) : Prop := sorts_before x y = true.

#[global] Instance SortsBefore_dec : RelDecision SortsBefore :=
  λ x y, decide (sorts_before x y = true).

(** The documents the query selects, before [sort] and [limit]. *)
Definition selected (env : Deployment) (q : Query) (now : Time) (d : Db)
  : list (Id * Alert) :=
  List.filter (λ x, matches env q now x.2) (map_to_list (alerts d)).

Definition find_active (env : Deployment) (q : Query) (now : Time) (d : Db)
  : list (Id * Alert) :=
  take 50 (merge_sort SortsBefore (selected env q now d)).

Definition get_active (env : Deployment) (q : Query) (now : Time) (d : Db)
  : Response * Db :=
  (AlertList (find_active env q now d), d).

(** The fields [POST /] reads from [req.body], and [duration], which the
    schema has and a caller may send. *)
Record Body := mkBody {
  b_type : option string;
  b_severity : option string;
  b_title : option string;
  b_description : option string;
  b_coordinates : option LocationInput;
  b_radius : option Q;
  b_duration : option string;
  b_confidence : option Q;
  b_evacuationZones : list Zone;
  b_source : option string;
  b_aiPrediction : option bool
}.

(** [notifyAffectedUsers(alert)]: the query for users in the radius who
    take push notifications, then one [sendPushNotification] per user
    through the identifier [NotificationService], which [routes/alerts.js]
    neither imports nor defines: the first call throws, the [catch] logs,
    and nothing is stored. *)
Definition notifyAffectedUsers (env : Deployment) (a : Alert) (d : Db) : Db :=
  let affectedUsers :=
    List.filter (λ x : Id * User,
                   located_within env (a_coordinates a) (a_radius a) x.2 && u_push x.2)
                (map_to_list (users d)) in
  match affectedUsers with
  | [] => d
  | _ :: _ => d
  end.

(** [new Alert({...})] of [POST /], schema defaults applied. *)
Definition new_alert_doc (now : Time) (b : Body) (p : Point) : Alert :=
  {| a_type := default EmptyString (b_type b);
     a_severity := default EmptyString (b_severity b);
     a_title := default EmptyString (b_title b);
     a_description := default EmptyString (b_description b);
     a_coordinates := p;
     a_radius := default (50 : Q) (b_radius b);
     a_duration := None;
     a_confidence := b_confidence b;
     a_evacuationZones := b_evacuationZones b;
     a_source := default EmptyString (b_source b);
     a_aiPrediction := default false (b_aiPrediction b);
     a_active := true;
     a_updatedAt := now;
     a_createdAt := now;
     a_expiresAt := Some (now + 24 * 60 * 60 * 1000) |}.

(** [alert.save()] of a new document: [None] when it throws. *)
Definition save_new (env : Deployment) (a : Alert) (d : Db) : option (Id * Db) :=
  if Schema.validate_alert a && index_accepts env (a_coordinates a)
  then Some (next_id d, bump_id (set_alerts (insert (next_id d) a) d))
  else None.

(** [POST /] *)
Definition create (env : Deployment) (now : Time) (b : Body) (d : Db) : Response * Db :=
  if coordinates_missing (b_coordinates b)
  then (Status400 "Valid coordinates required", d)
  else
    match b_coordinates b ≫= point_of with
    | None => (Status500, d)
    | Some p =>
        let alert := new_alert_doc now b p in
        match save_new env alert d with
        | None => (Status500, d)
        | Some (id, d1) =>
            let d2 := notifyAffectedUsers env alert d1 in
            (AlertCreated id alert, emit (new_alert id) d2)
        end
    end.

(** The body of [PUT /:id] after Mongoose has cast it against the schema.
    [updatedAt] of the body is overridden by the handler. *)
Record Patch := mkPatch {
  p_type : option string;
  p_severity : option string;
  p_title : option string;
  p_description : option string;
  p_radius : option Q;
  p_confidence : option Q;
  p_aiPrediction : option bool;
  p_active : option bool;
  p_createdAt : option Time;
  p_expiresAt : option Time
}.

(** [{ ...req.body, updatedAt: new Date() }] applied as a [$set]. *)
Definition apply_patch (now : Time) (p : Patch) (a : Alert) : Alert :=
  {| a_type := default (a_type a) (p_type p);
     a_severity := default (a_severity a) (p_severity p);
     a_title := default (a_title a) (p_title p);
     a_description := default (a_description a) (p_description p);
     a_coordinates := a_coordinates a;
     a_radius := default (a_radius a) (p_radius p);
     a_duration := a_duration a;
     a_confidence := match p_confidence p with Some c => Some c | None => a_confidence a end;
     a_evacuationZones := a_evacuationZones a;
     a_source := a_source a;
     a_aiPrediction := default (a_aiPrediction a) (p_aiPrediction p);
     a_active := default (a_active a) (p_active p);
     a_updatedAt := now;
     a_createdAt := default (a_createdAt a) (p_createdAt p);
     a_expiresAt := match p_expiresAt p with Some e => Some e | None => a_expiresAt a end |}.

(** [PUT /:id] *)
Definition update (now : Time) (id : Id) (p : Patch) (d : Db) : Response * Db :=
  match alerts d !! id with
  | None => (Status404 "Alert not found", d)
  | Some a =>
      let a' := apply_patch now p a in
      (AlertJson id a', emit (alert_updated id) (set_alerts (insert id a') d))
  end.

(** [{ active: false, updatedAt: new Date() }] applied as a [$set]. *)
Definition deactivated (now : Time) (a : Alert) : Alert :=
  {| a_type := a_type a; a_severity := a_severity a; a_title := a_title a;
     a_description := a_description a; a_coordinates := a_coordinates a;
     a_radius := a_radius a; a_duration := a_duration a;
     a_confidence := a_confidence a; a_evacuationZones := a_evacuationZones a;
     a_source := a_source a; a_aiPrediction := a_aiPrediction a;
     a_active := false;
     a_updatedAt := now;
     a_createdAt := a_createdAt a; a_expiresAt := a_expiresAt a |}.

(** [DELETE /:id] *)
Definition deactivate (now : Time) (id : Id) (d : Db) : Response * Db :=
  match alerts d !! id with
  | None => (Status404 "Alert not found", d)
  | Some a =>
      (Message "Alert deactivated successfully",
       emit (alert_deactivated id) (set_alerts (insert id (deactivated now a)) d))
  end.

End Alerts.

(** ** [backend/routes/reports.js] *)

Module Reports.

(** What [POST /] reads from the request: the authenticated user, the body
    fields, the parsed location and the uploaded files
    ([upload.array('attachments', 5)] admits at most five). *)
Record Request := mkRequest {
  req_userId : Id;
  req_type : option string;
  req_severity : option string;
  req_description : option string;
  req_title : option string;
  req_location : option LocationInput;
  req_files : list Attachment
}.

Definition pointsMap : list (string * Z) :=
  [("erosion", 15); ("pollution", 20); ("weather", 25);
   ("wildlife", 10); ("infrastructure", 15); ("tsunami", 50)]%string.

Definition severityMultiplier : list (string * spec_float) :=
  [("low", Js.of_Z 1); ("medium", Js.decimal 12 10);
   ("high", Js.decimal 15 10); ("critical", Js.of_Z 2)]%string.

(** [pointsMap[type] || 10] (no entry of the table is falsy) *)
Definition basePoints (type : string) : Z :=
  default 10 (Js.prop pointsMap type).

(** [attachments.length * 5] *)
Definition evidenceBonus (attachments : list Attachment) : Z :=
  Z.of_nat (length attachments) * 5.

(** [Math.floor((basePoints + evidenceBonus) * severityMultiplier[severity])];
    [None] is the NaN of a severity outside the table.  The sum is an integer
    far below 2^53, which a double holds exactly. *)
Definition totalPoints (type severity : string) (attachments : list Attachment) : option Z :=
  m ← Js.prop severityMultiplier severity;
  Js.floor (Js.mul (Js.of_Z (basePoints type + evidenceBonus attachments)) m).

Definition count_reports (P : Report -> bool) (d : Db) : nat :=
  length (List.filter (λ x : Id * Report, P x.2) (map_to_list (reports d))).

Definition with_streak (s : Z) (u : User) : User :=
  mkUser (u_name u) (u_points u) (u_badges u) (u_geo u) (u_push u) (u_community u)
         s (u_lastActive u).

Definition add_points (k : Z) (u : User) : User :=
  mkUser (u_name u) (u_points u + k) (u_badges u) (u_geo u) (u_push u) (u_community u)
         (u_streak u) (u_lastActive u).

Definition with_lastActive (t : Time) (u : User) : User :=
  mkUser (u_name u) (u_points u) (u_badges u) (u_geo u) (u_push u) (u_community u)
         (u_streak u) t.

Definition add_badges (l : list string) (u : User) : User :=
  mkUser (u_name u) (u_points u) (u_badges u ++ l) (u_geo u) (u_push u) (u_community u)
         (u_streak u) (u_lastActive u).

Definition todayReports (env : Deployment) (now : Time) (userId : Id) (d : Db) : nat :=
  count_reports (λ r, (r_userId r =? userId)%N
                      && (startOfDay env now <=? r_createdAt r)) d.

Definition yesterdayReports (env : Deployment) (now : Time) (userId : Id) (d : Db) : nat :=
  count_reports (λ r, (r_userId r =? userId)%N
                      && (startOfDay env now - 24 * 60 * 60 * 1000 <=? r_createdAt r)
                      && (r_createdAt r <? startOfDay env now)) d.

(** [checkAndUpdateStreak(userId)].  An unknown user makes [user.streak]
    throw inside the [try]; the error is logged and nothing is saved. *)
Definition checkAndUpdateStreak (env : Deployment) (now : Time) (userId : Id) (d : Db) : Db :=
  if (0 <? todayReports env now userId d)%nat then
    match users d !! userId with
    | None => d
    | Some user =>
        let streak :=
          if (0 <? yesterdayReports env now userId d)%nat
          then u_streak user + 1      (* continue streak *)
          else 1 in                   (* reset streak *)
        set_users (insert userId (with_streak streak user)) d
    end
  else d.

(** The badges [checkAchievements] collects, in the order of its tests. *)
Definition achievements (user : User) (totalReports verifiedReports weatherReports : nat)
  : list string :=
  let has b := Js.includes (u_badges user) b in
  (if (totalReports =? 1)%nat && negb (has "First Reporter"%string)
   then ["First Reporter"%string] else [])
  ++ (if (10 <=? weatherReports)%nat && negb (has "Weather Watcher"%string)
      then ["Weather Watcher"%string] else [])
  ++ (if (100 <=? totalReports)%nat && negb (has "Community Hero"%string)
      then ["Community Hero"%string] else [])
  ++ (if (20 <=? totalReports)%nat
         && Js.geb (Js.div (Js.of_Z (Z.of_nat verifiedReports))
                           (Js.of_Z (Z.of_nat totalReports)))
                   (Js.decimal 8 10)
         && negb (has "Accuracy Expert"%string)
      then ["Accuracy Expert"%string] else [])
  ++ (if (30 <=? u_streak user) && negb (has "Streak Master"%string)
      then ["Streak Master"%string] else []).

(** [checkAchievements(userId)].  The notifications are sent from [async]
    callbacks through [req]; without a binding for it each callback rejects
    and nothing is sent. *)
Definition checkAchievements (env : Deployment) (userId : Id) (d : Db) : Db :=
  match users d !! userId with
  | None => d
  | Some user =>
      let mine r := (r_userId r =? userId)%N in
      let earned :=
        achievements user
          (count_reports mine d)
          (count_reports (λ r, mine r && r_verified r) d)
          (count_reports (λ r, mine r && String.eqb (r_type r) "weather") d) in
      match earned with
      | [] => d
      | _ :: _ =>
          let user' := add_points (Z.of_nat (length earned) * 100) (add_badges earned user) in
          let d1 := set_users (insert userId user') d in
          if reqInScope env
          then foldl (λ acc achievement,
                        (NotificationService.sendPushNotification userId
                           (NotificationService.mkMessage
                              "Achievement Unlocked!"
                              (String.append "You earned the "
                                 (String.append (Js.quoted achievement) " badge! +100 points"))
                              "achievement" "medium" None) acc).2)
                     d1 earned
          else d1
      end
  end.

(** [autoGenerateAlert(report)].  The broadcast after [alert.save()] goes
    through [req]; without a binding for it the statement throws into the
    [catch], after the alert is stored. *)
Definition autoGenerateAlert (env : Deployment) (now : Time) (report : Report) (d : Db) : Db :=
  let confidence := report.(r_aiAnalysis) ≫= ai_confidence in
  if Js.lt confidence 80 then d
  else
    let alert :=
      {| a_type := r_type report;
         a_severity := r_severity report;
         a_title := String.append "Community Alert: " (r_title report);
         a_description :=
           String.append "Critical "
             (String.append (r_type report)
                (String.append " reported by community member. " (r_description report)));
         a_coordinates := r_location report;
         a_radius := 25;
         a_duration := None;
         a_confidence := confidence;
         a_evacuationZones := [ZonePrimitive "Immediate area (0-5km)"];
         a_source := "Community Report (AI Verified)";
         a_aiPrediction := true;
         a_active := true;
         a_updatedAt := now;
         a_createdAt := now;
         a_expiresAt := Some (now + 12 * 60 * 60 * 1000) |} in
    match Alerts.save_new env alert d with
    | None => d
    | Some (id, d1) => if reqInScope env then emit (auto_generated_alert id) d1 else d1
    end.

(** The users [notifyNearbyUsers] selects. *)
Definition nearbyUsers (env : Deployment) (report : Report) (d : Db) : list (Id * User) :=
  List.filter
    (λ x : Id * User,
       located_within env (r_location report) 10 x.2
       && u_community x.2
       && negb (x.1 =? r_userId report)%N)     (* exclude report author *)
    (map_to_list (users d)).

(** [notifyNearbyUsers(report)].  The [map] callback reaches the notification
    service through [req]; without a binding for it the first call throws
    into the [catch] and nobody is notified. *)
Definition notifyNearbyUsers (env : Deployment) (id : Id) (report : Report) (d : Db) : Db :=
  if String.eqb (r_severity report) "low" then d
  else
    if reqInScope env
    then foldl (λ acc (x : Id * User),
                  (NotificationService.sendPushNotification x.1
                     (NotificationService.mkMessage
                        (String.append (Js.toUpperCase (r_severity report)) " Report Nearby")
                        (String.append (r_type report) " reported within 10km of your location")
                        "community" (r_severity report) (Some id)) acc).2)
               d (nearbyUsers env report d)
    else d.

(** [new Report({...})] of [POST /], schema defaults applied. *)
Definition new_report_doc (now : Time) (req : Request) (type : string) (p : Point) : Report :=
  {| r_userId := req_userId req;
     r_type := type;
     r_severity := default EmptyString (req_severity req);
     r_title := if Js.truthy_str (req_title req)
                then default EmptyString (req_title req)
                else String.append (Js.capitalize type) " Report";
     r_description := default EmptyString (req_description req);
     r_location := p;
     r_attachments := req_files req;
     r_verified := false;
     r_aiAnalysis := None;
     r_helpful := 0;
     r_notHelpful := 0;
     r_voters := [];
     r_status := "pending";
     r_createdAt := now |}.

Definition with_aiAnalysis (a : AiAnalysis) (r : Report) : Report :=
  mkReport (r_userId r) (r_type r) (r_severity r) (r_title r) (r_description r)
           (r_location r) (r_attachments r) (r_verified r) (Some a)
           (r_helpful r) (r_notHelpful r) (r_voters r) (r_status r) (r_createdAt r).

(** [report.save()] of a new document: [None] when it throws. *)
Definition save_new (env : Deployment) (r : Report) (d : Db) : option (Id * Db) :=
  if Schema.validate_report r && index_accepts env (r_location r)
  then Some (next_id d, bump_id (set_reports (insert (next_id d) r) d))
  else None.

(** [$inc: { points: totalPoints }, lastActive: new Date()] *)
Definition award (points : Z) (now : Time) (u : User) : User :=
  with_lastActive now (add_points points u).

(** [POST /]: submit a report.  [ai] is what [aiService.analyzeReport]
    returned, [None] when the call failed.  A missing [type] throws before
    anything is saved, at [type.charAt] or at validation. *)
Definition submit (env : Deployment) (now : Time) (req : Request)
    (ai : option AiAnalysis) (d : Db) : Response * Db :=
  if coordinates_missing (req_location req)
  then (Status400 "Valid location coordinates required", d)
  else
    match req_location req ≫= point_of, req_type req with
    | Some p, Some type =>
        let severity := default EmptyString (req_severity req) in
        match save_new env (new_report_doc now req type p) d with
        | None => (Status500, d)
        | Some (id, d1) =>
            (* AI analysis; a failure is logged and the report stays as saved *)
            let report :=
              match ai with
              | Some a => with_aiAnalysis a (new_report_doc now req type p)
              | None => new_report_doc now req type p
              end in
            let d2 := match ai with
                      | Some _ => set_reports (insert id report) d1
                      | None => d1
                      end in
            match totalPoints type severity (req_files req) with
            | None => (Status500, d2)
            | Some points =>
                let d3 := set_users (alter (award points now) (req_userId req)) d2 in
                let user := users d3 !! req_userId req in
                let d4 := checkAndUpdateStreak env now (req_userId req) d3 in
                let d5 := checkAchievements env (req_userId req) d4 in
                (* auto-generate alert if critical severity and AI confirms *)
                let d6 :=
                  if String.eqb severity "critical"
                     && Js.gt (report.(r_aiAnalysis) ≫= ai_confidence) 80
                  then autoGenerateAlert env now report d5
                  else d5 in
                let d7 := notifyNearbyUsers env id report d6 in
                match user with
                | None => (Status500, d7)       (* [user.name] of [null] *)
                | Some u => (ReportCreated id points (u_points u), emit (new_report id) d7)
                end
            end
        end
    | _, _ => (Status500, d)
    end.

Definition with_vote (helpful : bool) (userId : Id) (r : Report) : Report :=
  mkReport (r_userId r) (r_type r) (r_severity r) (r_title r) (r_description r)
           (r_location r) (r_attachments r) (r_verified r) (r_aiAnalysis r)
           (if helpful then r_helpful r + 1 else r_helpful r)
           (if helpful then r_notHelpful r else r_notHelpful r + 1)
           (r_voters r ++ [userId]) (r_status r) (r_createdAt r).

(** [POST /:id/vote]; [helpful] is the truthiness of [req.body.helpful]. *)
Definition vote (userId reportId : Id) (helpful : bool) (d : Db) : Response * Db :=
  match reports d !! reportId with
  | None => (Status404 "Report not found", d)
  | Some report =>
      if existsb (N.eqb userId) (r_voters report)
      then (Status400 "You have already voted on this report", d)
      else
        let report' := with_vote helpful userId report in
        let d1 := set_reports (insert reportId report') d in
        let d2 := if helpful
                  then set_users (alter (add_points 2) (r_userId report)) d1
                  else d1 in
        (VoteRecorded (r_helpful report') (r_notHelpful report') (r_voters report'), d2)
  end.

(** What [PUT /:id/verify] answers. *)
Inductive VerifyAnswer :=
| VerifyFailed (r : Response)
| VerifyJson (id : Id) (report : Report).       (* 200 *)

(** [{ verified, status: verified ? 'verified' : 'rejected' }] applied as a
    [$set]; [verifiedBy] and [verificationNotes] are written too and read by
    nothing here. *)
Definition with_verification (verified : bool) (r : Report) : Report :=
  mkReport (r_userId r) (r_type r) (r_severity r) (r_title r) (r_description r)
           (r_location r) (r_attachments r) verified (r_aiAnalysis r)
           (r_helpful r) (r_notHelpful r) (r_voters r)
           (if verified then "verified" else "rejected") (r_createdAt r).

(** [PUT /:id/verify]; [verified] is the boolean of the body.  The report
    comes back with its author populated: when the author's document is gone
    [report.userId._id] throws, after the report has been updated. *)
Definition verify (reportId : Id) (verified : bool) (d : Db) : VerifyAnswer * Db :=
  match reports d !! reportId with
  | None => (VerifyFailed (Status404 "Report not found"), d)
  | Some report =>
      let report' := with_verification verified report in
      let d1 := set_reports (insert reportId report') d in
      if verified then
        match users d1 !! r_userId report with
        | None => (VerifyFailed Status500, d1)
        | Some _ =>
            (* award bonus points for verified reports, notify report author *)
            let d2 := set_users (alter (add_points 25) (r_userId report)) d1 in
            let d3 :=
              (NotificationService.sendPushNotification (r_userId report)
                 (NotificationService.mkMessage "Report Verified!"
                    (String.append "Your "
                       (String.append (r_type report)
                          " report has been verified. +25 bonus points!"))
                    "achievement" "medium" None) d2).2 in
            (VerifyJson reportId report', d3)
        end
      else (VerifyJson reportId report', d1)
  end.

End Reports.

(** * Data for the statements

    ** Concrete data used by the examples *)

Module Sample.

(** No geo index, every position within every radius, days cut at UTC
    midnight, [req] unbound in the helpers. *)
Definition env : Deployment :=
  mkDeployment false (λ _ _ _, true) (λ t, t - t mod DAY) false.

(** The same with a binding for [req] visible to the helpers. *)
Definition env_req : Deployment :=
  mkDeployment false (λ _ _ _, true) (λ t, t - t mod DAY) true.

(** The same as [env] with the [2dsphere] indexes built. *)
Definition env_indexed : Deployment :=
  mkDeployment true (λ _ _ _, true) (λ t, t - t mod DAY) false.

Definition here : Point := mkPoint (72 # 1) (19 # 1).

Definition ann : User := mkUser "ann" 100 [] (Some here) true true 4 0.
Definition bob : User := mkUser "bob" 100 [] (Some here) true true 0 0.

Definition empty : Db := mkDb ∅ ∅ ∅ [] [] 1%N.

Definition flood : Alerts.Body :=
  Alerts.mkBody (Some "flood"%string) (Some "high"%string) (Some "River flood"%string)
    (Some "Water rising"%string)
    (Some (mkLocation (Some (19 # 1)) (Some (72 # 1)) None None))
    None None (Some (70 # 1)) [] (Some "sensor"%string) None.

Definition reactivate : Alerts.Patch :=
  Alerts.mkPatch None None None None None None None (Some true) None None.

Definition retitle : Alerts.Patch :=
  Alerts.mkPatch None None (Some "River flood, receding"%string) None None None None None None None.

Definition no_filter : Alerts.Query := Alerts.mkQuery None None None None.

Definition photo : Attachment := mkAttachment "a.png" "a.png" "image/png" 1000.

Definition report_at (type severity : string) (lat lng : Q) (files : list Attachment)
  : Reports.Request :=
  Reports.mkRequest 1%N (Some type) (Some severity) (Some "seen from the pier"%string) None
    (Some (mkLocation (Some lat) (Some lng) None None)) files.

Definition confident (c : Q) : AiAnalysis := mkAi (Some (90 # 1)) (Some c) [] (Some (1 # 1)).

(** Ann and Bob; Ann has reported once before, at time 0. *)
Definition people : Db :=
  mkDb {[ 1%N := ann; 2%N := bob ]}
       {[ 5%N := Reports.new_report_doc 0 (report_at "erosion" "low" (19 # 1) (72 # 1) [])
                   "erosion" here ]}
       ∅ [] [] 10%N.

End Sample.

(** ** Definitions used by the statements *)

(** The same request body with another [duration]. *)
Definition with_duration (dur : option string) (b : Alerts.Body) : Alerts.Body :=
  Alerts.mkBody (Alerts.b_type b) (Alerts.b_severity b) (Alerts.b_title b)
    (Alerts.b_description b) (Alerts.b_coordinates b) (Alerts.b_radius b) dur
    (Alerts.b_confidence b) (Alerts.b_evacuationZones b) (Alerts.b_source b)
    (Alerts.b_aiPrediction b).

(** The report as [POST /] leaves it in the collection. *)
Definition stored_report (now : Time) (req : Reports.Request) (type : string) (p : Point)
    (ai : option AiAnalysis) : Report :=
  match ai with
  | Some a => Reports.with_aiAnalysis a (Reports.new_report_doc now req type p)
  | None => Reports.new_report_doc now req type p
  end.

(** The multiplier table in the words of the design document, exact
    decimals: low 1, medium 1.2, high 1.5, critical 2. *)
Definition spec_severityMultiplier : list (string * Q) :=
  [("low", 1); ("medium", 12 # 10); ("high", 15 # 10); ("critical", 2)]%string%Q.

(** [floor((basePoints(type) + 5 × attachmentCount) × severityMultiplier(severity))]
    in exact arithmetic, over the code's table of base points. *)
Definition spec_points (type severity : string) (attachmentCount : nat) : option Z :=
  m ← Js.prop spec_severityMultiplier severity;
  Some (Qfloor (inject_Z (Reports.basePoints type + 5 * Z.of_nat attachmentCount) * m)).

(** The users for whom a step stored a notification. *)
Definition notified_by (before after : Db) : list Id :=
  n_userId <$> drop (length (notifications before)) (notifications after).

(** Fifty-one alerts created by [POST /], one per millisecond from time 0. *)
Definition crowded : Db :=
  foldl (λ d t, (Alerts.create Sample.env (Z.of_nat t) Sample.flood d).2)
        Sample.empty (seq 0 51).


(** A report by Ann on which Bob has voted. *)
Definition voted_db : Db :=
  mkDb {[ 1%N := Sample.ann; 2%N := Sample.bob ]}
       {[ 5%N := Reports.with_vote true 2%N
                   (Reports.new_report_doc 0
                      (Sample.report_at "erosion" "low" (19 # 1) (72 # 1) []) "erosion"
                      Sample.here) ]}
       ∅ [] [] 10%N.

(** Where a severity comes in the listing of active alerts: the order the
    statements about [sort] are phrased in. *)
Definition listing_rank (severity : string) : nat :=
  if String.eqb severity "medium" then 0
  else if String.eqb severity "low" then 1
  else if String.eqb severity "high" then 2
  else 3.

(** A critical cyclone alert. *)
Definition cyclone : Alerts.Body :=
  Alerts.mkBody (Some "cyclone"%string) (Some "critical"%string) (Some "Cyclone"%string)
    (Some "Landfall expected"%string)
    (Some (mkLocation (Some (19 # 1)) (Some (72 # 1)) None None))
    None None (Some (95 # 1)) [] (Some "satellite"%string) None.

(** A medium pollution alert. *)
Definition spill : Alerts.Body :=
  Alerts.mkBody (Some "pollution"%string) (Some "medium"%string) (Some "Oil spill"%string)
    (Some "Slick near the harbour"%string)
    (Some (mkLocation (Some (19 # 1)) (Some (72 # 1)) None None))
    None None None [] (Some "manual"%string) None.

(** The cyclone alert created first, the spill alert a second later. *)
Definition two_alerts : Db :=
  (Alerts.create Sample.env 1000 spill
     (Alerts.create Sample.env 0 cyclone Sample.empty).2).2.

(** A patch that moves the expiry. *)
Definition extend_to (e : Time) : Alerts.Patch :=
  Alerts.mkPatch None None None None None None None None None (Some e).





(** One medium spill alert at time 0, then fifty-one critical cyclone
    alerts, one per millisecond. *)
Definition cyclone_season : Db :=
  foldl (λ d t, (Alerts.create Sample.env (Z.of_nat t) cyclone d).2)
        (Alerts.create Sample.env 0 spill Sample.empty).2 (seq 1 51).


(** A vote tally that agrees with its voter list: one vote per voter, no
    voter twice. *)
Definition tally_ok (r : Report) : Prop :=
  0 <= r_helpful r /\ 0 <= r_notHelpful r
  /\ r_helpful r + r_notHelpful r = Z.of_nat (length (r_voters r))
  /\ NoDup (r_voters r).

Definition tallies_ok (d : Db) : Prop :=
  forall id r, reports d !! id = Some r -> tally_ok r.

(** The notification [PUT /:id/verify] sends to the author. *)
Definition verified_message (report : Report) : NotificationService.Message :=
  NotificationService.mkMessage "Report Verified!"
    (String.append "Your "
       (String.append (r_type report) " report has been verified. +25 bonus points!"))
    "achievement" "medium" None.

(** The three counts [checkAchievements] takes of a user's reports. *)
Definition totalReports (userId : Id) (d : Db) : nat :=
  Reports.count_reports (λ r, (r_userId r =? userId)%N) d.

Definition verifiedReports (userId : Id) (d : Db) : nat :=
  Reports.count_reports (λ r, (r_userId r =? userId)%N && r_verified r) d.

Definition weatherReports (userId : Id) (d : Db) : nat :=
  Reports.count_reports (λ r, (r_userId r =? userId)%N && String.eqb (r_type r) "weather") d.

(** The badges [checkAchievements] finds earned for a stored user. *)
Definition earned_badges (userId : Id) (u : User) (d : Db) : list string :=
  Reports.achievements u (totalReports userId d) (verifiedReports userId d)
    (weatherReports userId d).

(** Ann with 99 points more and ten weather reports, about to add another. *)
Definition weather_db : Db :=
  mkDb {[ 1%N := Sample.ann ]}
       (list_to_map
          ((λ i, (N.of_nat i,
                  Reports.new_report_doc (Z.of_nat i)
                    (Sample.report_at "weather" "low" (19 # 1) (72 # 1) []) "weather"
                    Sample.here)) <$> seq 20 10))
       ∅ [] [] 100%N.

(** Whether a stored user takes push notifications. *)
Definition takes_push (d : Db) (userId : Id) : bool :=
  match users d !! userId with
  | Some u => u_push u
  | None => false
  end.

(** The three priorities of a weather alert, in rising order. *)
Definition priority_level (priority : string) : nat :=
  if String.eqb priority "critical" then 2
  else if String.eqb priority "high" then 1
  else 0.

(** A reading that did not go down ([rises]) or up ([falls]); a reading
    that was missing before may be anything afterwards. *)
Definition rises (x y : option Q) : Prop :=
  match x, y with
  | Some p, Some q => (p <= q)%Q
  | Some _, None => False
  | None, _ => True
  end.

Definition falls (x y : option Q) : Prop :=
  match x, y with
  | Some p, Some q => (q <= p)%Q
  | Some _, None => False
  | None, _ => True
  end.

(** Weather at least as rough: wind and waves no lower, pressure no higher. *)
Definition at_least_as_rough (data data' : NotificationService.WeatherData) : Prop :=
  rises (NotificationService.windSpeed data) (NotificationService.windSpeed data')
  /\ falls (NotificationService.pressure data) (NotificationService.pressure data')
  /\ rises (NotificationService.waveHeight data) (NotificationService.waveHeight data').

(** Ann, Bob and Cy; Cy has switched push notifications off. *)
Definition three_people : Db :=
  mkDb {[ 1%N := Sample.ann; 2%N := Sample.bob;
          3%N := mkUser "cy" 100 [] None false true 0 0 ]}
       ∅ ∅ [] [] 10%N.

(** * Properties

    ** Alert lifecycle *)

Section AlertLifecycle.

Implicit Types (d : Db) (a : Alert) (id : Id) (p : Alerts.Patch) (now : Time).

Lemma apply_patch_active now p a :
  a_active (Alerts.apply_patch now p a) = default (a_active a) (Alerts.p_active p).
Proof. reflexivity. Qed.

Lemma update_found now id p d a :
  alerts d !! id = Some a ->
  alerts (Alerts.update now id p d).2 !! id = Some (Alerts.apply_patch now p a).
Proof.
  intros Hfind. unfold Alerts.update. rewrite Hfind. cbn.
  apply lookup_insert_eq.
Qed.

Lemma deactivate_found now id d a :
  alerts d !! id = Some a ->
  alerts (Alerts.deactivate now id d).2 !! id = Some (Alerts.deactivated now a).
Proof.
  intros Hfind. unfold Alerts.deactivate. rewrite Hfind. cbn.
  apply lookup_insert_eq.
Qed.

(** C1, as stated, fails: [PUT /:id] writes whatever the body carries, the
    [active] flag included.  Here an alert is deactivated by [DELETE /:id]
    and the update with body [{active: true}] makes it active again. *)
Lemma update_reactivates_counterexample :
  let stored := (Alerts.create Sample.env 0 Sample.flood Sample.empty).2 in
  let off := (Alerts.deactivate 10 1%N stored).2 in
  let back := (Alerts.update 20 1%N Sample.reactivate off).2 in
  a_active <$> alerts off !! 1%N = Some false
  /\ a_active <$> alerts back !! 1%N = Some true.
Proof. split; vm_compute; reflexivity. Qed.

(** C1, amended: a deactivated alert stays inactive under every update whose
    patch does not itself carry [active = true]; in general the flag after
    an update is the patch's [active] when it has one and the old flag
    otherwise. *)
Theorem update_keeps_inactive now id p d a :
  alerts d !! id = Some a ->
  exists a', alerts (Alerts.update now id p d).2 !! id = Some a'
             /\ a_active a' = default (a_active a) (Alerts.p_active p)
             /\ (a_active a = false -> Alerts.p_active p <> Some true ->
                 a_active a' = false).
Proof.
  intros Hfind.
  exists (Alerts.apply_patch now p a). split; [|split].
  - by apply update_found.
  - apply apply_patch_active.
  - intros Hoff Hpatch. rewrite apply_patch_active, Hoff.
    destruct (Alerts.p_active p) as [[|]|]; [congruence | reflexivity | reflexivity].
Qed.

Lemma update_keeps_inactive_witness :
  let stored := (Alerts.create Sample.env 0 Sample.flood Sample.empty).2 in
  let off := (Alerts.deactivate 10 1%N stored).2 in
  exists a', alerts (Alerts.update 20 1%N Sample.retitle off).2 !! 1%N = Some a'
             /\ a_title a' = "River flood, receding"%string
             /\ a_active a' = false.
Proof.
  cbv zeta.
  destruct (update_keeps_inactive 20 1%N Sample.retitle
              (Alerts.deactivate 10 1%N
                 (Alerts.create Sample.env 0 Sample.flood Sample.empty).2).2
              (Alerts.deactivated 10 (Alerts.new_alert_doc 0 Sample.flood Sample.here)))
    as (a' & Hfind & _ & Hoff).
  - vm_compute. reflexivity.
  - exists a'. split; [exact Hfind|]. split.
    + assert (Hsame : Some a' = Some (Alerts.apply_patch 20 Sample.retitle
                (Alerts.deactivated 10 (Alerts.new_alert_doc 0 Sample.flood Sample.here)))).
      { rewrite <- Hfind. vm_compute. reflexivity. }
      injection Hsame as ->. reflexivity.
    + apply Hoff; [reflexivity|discriminate].
Defined.

Lemma notifyAffectedUsers_id env a d : Alerts.notifyAffectedUsers env a d = d.
Proof. unfold Alerts.notifyAffectedUsers. by destruct (List.filter _ _). Qed.

(** What a successful [POST /] has done. *)
Lemma create_created env now (b : Alerts.Body) d id a d' :
  Alerts.create env now b d = (AlertCreated id a, d') ->
  exists l pt,
    Alerts.b_coordinates b = Some l /\ point_of l = Some pt
    /\ a = Alerts.new_alert_doc now b pt
    /\ Schema.validate_alert a = true
    /\ index_accepts env pt = true
    /\ id = next_id d
    /\ d' = emit (new_alert id) (bump_id (set_alerts (insert id a) d)).
Proof.
  unfold Alerts.create.
  destruct (coordinates_missing _); [discriminate|].
  destruct (Alerts.b_coordinates b) as [l|]; cbn; [|discriminate].
  destruct (point_of l) as [pt|] eqn:Hpt; [|discriminate].
  unfold Alerts.save_new.
  destruct (Schema.validate_alert _) eqn:Hv; cbn; [|discriminate].
  destruct (index_accepts _ _) eqn:Hi; cbn; [|discriminate].
  rewrite notifyAffectedUsers_id. intros [= <- <- <-].
  exists l, pt. repeat split; assumption.
Qed.

Lemma created_alert_facts env now (b : Alerts.Body) d id a d' :
  Alerts.create env now b d = (AlertCreated id a, d') ->
  a_active a = true
  /\ a_createdAt a = now
  /\ a_expiresAt a = Some (now + 24 * HOUR)
  /\ alerts d' !! id = Some a.
Proof.
  intros Hcreate.
  destruct (create_created _ _ _ _ _ _ _ Hcreate)
    as (l & pt & _ & _ & -> & _ & _ & -> & ->).
  repeat split. cbn. apply lookup_insert_eq.
Qed.

(** C3, as stated, fails: [POST /] does not read a duration.  A body that
    asks for one hour gets the alert that expires after twenty-four. *)
Lemma create_ignores_duration_counterexample :
  let b := with_duration (Some "1 hour"%string) Sample.flood in
  exists id a d',
    Alerts.create Sample.env 0 b Sample.empty = (AlertCreated id a, d')
    /\ Alerts.b_duration b = Some "1 hour"%string
    /\ a_expiresAt a = Some (a_createdAt a + 24 * HOUR)
    /\ a_expiresAt a <> Some (a_createdAt a + 1 * HOUR).
Proof. cbv zeta. do 3 eexists. repeat split. discriminate. Qed.

(** C3, amended: every alert [POST /] creates has [createdAt] the time of
    the request and [expiresAt] twenty-four hours later; a duration in the
    body, present or absent, changes nothing of the answer or of what is
    stored. *)
Theorem create_expires_after_one_day env now (b : Alerts.Body) d id a d' :
  Alerts.create env now b d = (AlertCreated id a, d') ->
  a_createdAt a = now
  /\ a_expiresAt a = Some (a_createdAt a + 24 * HOUR)
  /\ alerts d' !! id = Some a
  /\ forall dur, Alerts.create env now (with_duration dur b) d = (AlertCreated id a, d').
Proof.
  intros Hcreate.
  destruct (created_alert_facts _ _ _ _ _ _ _ Hcreate) as (_ & Hc & He & Hfind).
  split; [assumption|]. split; [by rewrite Hc|]. split; [assumption|].
  intros dur. rewrite <- Hcreate. reflexivity.
Qed.

Lemma create_expires_after_one_day_witness :
  exists id a d',
    Alerts.create Sample.env 5000 Sample.flood Sample.empty = (AlertCreated id a, d')
    /\ a_createdAt a = 5000
    /\ a_expiresAt a = Some (5000 + 24 * HOUR)
    /\ Alerts.create Sample.env 5000 (with_duration (Some "2 days"%string) Sample.flood)
         Sample.empty = (AlertCreated id a, d').
Proof.
  do 3 eexists.
  assert (Hrun : Alerts.create Sample.env 5000 Sample.flood Sample.empty
                 = (AlertCreated 1%N
                      (Alerts.new_alert_doc 5000 Sample.flood Sample.here),
                    emit (new_alert 1%N)
                         (bump_id (set_alerts
                            (insert 1%N (Alerts.new_alert_doc 5000 Sample.flood Sample.here))
                            Sample.empty)))) by reflexivity.
  split; [exact Hrun|].
  destruct (create_expires_after_one_day _ _ _ _ _ _ _ Hrun) as (Hc & He & _ & Hdur).
  split; [exact Hc|]. split; [exact He|]. apply Hdur.
Defined.

End AlertLifecycle.

(** ** The active-alerts query *)

Section ActiveQuery.

Implicit Types (d : Db) (a : Alert) (id : Id) (q : Alerts.Query) (now : Time).

Lemma selected_spec env q now d id a :
  (id, a) ∈ Alerts.selected env q now d
  <-> alerts d !! id = Some a /\ Alerts.matches env q now a = true.
Proof.
  unfold Alerts.selected.
  rewrite list_elem_of_In, filter_In, <- list_elem_of_In, elem_of_map_to_list.
  reflexivity.
Qed.

Lemma find_active_selected env q now d x :
  x ∈ Alerts.find_active env q now d -> x ∈ Alerts.selected env q now d.
Proof.
  unfold Alerts.find_active. intros Hin.
  apply (subseteq_take 50) in Hin.
  by rewrite merge_sort_Permutation in Hin.
Qed.

Lemma find_active_complete env q now d x :
  (length (Alerts.selected env q now d) <= 50)%nat ->
  x ∈ Alerts.selected env q now d -> x ∈ Alerts.find_active env q now d.
Proof.
  unfold Alerts.find_active. intros Hlen Hin.
  rewrite take_ge.
  - by rewrite merge_sort_Permutation.
  - by rewrite merge_sort_Permutation.
Qed.

#[local] Instance SortsBefore_total : Total Alerts.SortsBefore.
Proof.
  intros x y. unfold Alerts.SortsBefore, Alerts.sorts_before.
  rewrite (String.compare_antisym (a_severity y.2) (a_severity x.2)).
  destruct (String.compare (a_severity x.2) (a_severity y.2)); cbn; auto.
  destruct (Z.leb_spec (a_createdAt y.2) (a_createdAt x.2)); [by left|right].
  apply Z.leb_le. lia.
Qed.

(** The answer is the front of the selected alerts put in order. *)
Lemma find_active_sorted env q now d :
  exists ordered,
    Sorted Alerts.SortsBefore ordered
    /\ ordered ≡ₚ Alerts.selected env q now d
    /\ Alerts.find_active env q now d = take 50 ordered.
Proof.
  exists (merge_sort Alerts.SortsBefore (Alerts.selected env q now d)).
  split; [apply Sorted_merge_sort, _|]. split; [apply merge_sort_Permutation|reflexivity].
Qed.

Lemma matches_active_unexpired env q now a :
  Alerts.matches env q now a = true ->
  a_active a = true
  /\ (a_expiresAt a = None \/ exists e, a_expiresAt a = Some e /\ now < e).
Proof.
  unfold Alerts.matches, Alerts.unexpired. intros Hm.
  repeat (apply andb_prop in Hm as [Hm ?]).
  split; [assumption|].
  destruct (a_expiresAt a) as [e|]; [right|by left].
  exists e. split; [reflexivity|]. by apply Z.ltb_lt.
Qed.

Lemma matches_no_filter_intro env now a e :
  a_active a = true -> a_expiresAt a = Some e -> now < e ->
  Alerts.matches env Sample.no_filter now a = true.
Proof.
  intros Ha He Hlt. unfold Alerts.matches, Alerts.unexpired.
  rewrite Ha, He. cbn. rewrite !andb_true_r. by apply Z.ltb_lt.
Qed.

(** C8, as stated, fails: the query stops at fifty documents.  Of fifty-one
    active alerts of one severity, none older than fifty milliseconds, the
    query one hour later leaves out the oldest, which was created at time 0
    with the default expiry and is neither expired nor deactivated. *)
Lemma active_query_limit_counterexample :
  exists a,
    alerts crowded !! 1%N = Some a
    /\ a_active a = true
    /\ a_createdAt a = 0
    /\ a_expiresAt a = Some (0 + 24 * HOUR)
    /\ 0 + 1 * HOUR < 0 + 24 * HOUR
    /\ forall a', (1%N, a') ∉ Alerts.find_active Sample.env Sample.no_filter (0 + 1 * HOUR) crowded.
Proof.
  eexists. split; [vm_compute; reflexivity|].
  split; [reflexivity|]. split; [reflexivity|]. split; [reflexivity|].
  split; [reflexivity|].
  intros a' Hin.
  apply (list_elem_of_fmap_2 fst) in Hin. cbn [fst] in Hin.
  revert Hin. apply (bool_decide_unpack _). vm_compute. exact I.
Qed.

(** C8, amended: the query answers at most fifty alerts; each of them is
    stored, active, either without [expiresAt] or with [expiresAt] strictly
    later than the query time, and passes the optional filters; when at most
    fifty alerts are selected all of them are answered, and otherwise the
    first fifty in the order of [sort] (severity as a string, descending,
    then [createdAt], descending).  An alert created at [T] and stored as
    created is selected at [T + 1h] (and answered when at most fifty are),
    and no query at [T + 25h] answers it, though its [active] flag is still
    set. *)
Theorem active_query_contract env q now d :
  (length (Alerts.find_active env q now d) <= 50)%nat
  /\ (forall id a, (id, a) ∈ Alerts.find_active env q now d ->
        alerts d !! id = Some a
        /\ a_active a = true
        /\ (a_expiresAt a = None \/ exists e, a_expiresAt a = Some e /\ now < e)
        /\ Alerts.matches env q now a = true)
  /\ ((length (Alerts.selected env q now d) <= 50)%nat ->
      forall id a, alerts d !! id = Some a -> Alerts.matches env q now a = true ->
                   (id, a) ∈ Alerts.find_active env q now d)
  /\ (exists ordered,
        Sorted Alerts.SortsBefore ordered
        /\ ordered ≡ₚ Alerts.selected env q now d
        /\ Alerts.find_active env q now d = take 50 ordered)
  /\ (forall T b d0 d1 id a,
        Alerts.create env T b d0 = (AlertCreated id a, d1) ->
        alerts d !! id = Some a ->
        a_active a = true
        /\ (id, a) ∈ Alerts.selected env Sample.no_filter (T + 1 * HOUR) d
        /\ ((length (Alerts.selected env Sample.no_filter (T + 1 * HOUR) d) <= 50)%nat ->
            (id, a) ∈ Alerts.find_active env Sample.no_filter (T + 1 * HOUR) d)
        /\ forall q' a', (id, a') ∉ Alerts.find_active env q' (T + 25 * HOUR) d).
Proof.
  split; [|split; [|split; [|split]]].
  - unfold Alerts.find_active. rewrite length_take. lia.
  - intros id a Hin. apply find_active_selected, selected_spec in Hin as [Hfind Hm].
    destruct (matches_active_unexpired _ _ _ _ Hm) as [Ha He]. by repeat split.
  - intros Hlen id a Hfind Hm. apply find_active_complete; [assumption|].
    by apply selected_spec.
  - apply find_active_sorted.
  - intros T b d0 d1 id a Hcreate Hfind.
    destruct (created_alert_facts _ _ _ _ _ _ _ Hcreate) as (Ha & _ & He & _).
    assert (Hsel : (id, a) ∈ Alerts.selected env Sample.no_filter (T + 1 * HOUR) d).
    { apply selected_spec. split; [assumption|].
      eapply matches_no_filter_intro; [exact Ha|exact He|]. unfold HOUR. lia. }
    repeat split; [assumption|assumption| |].
    + intros Hlen. by apply find_active_complete.
    + intros q' a' Hin. apply find_active_selected, selected_spec in Hin as [Hfind' Hm].
      assert (a' = a) as -> by congruence.
      destruct (matches_active_unexpired _ _ _ _ Hm) as [_ [Hnone | (e & Hsome & Hlt)]].
      * congruence.
      * rewrite He in Hsome. injection Hsome as <-. unfold HOUR in Hlt. lia.
Qed.

Lemma active_query_contract_witness :
  let d := (Alerts.create Sample.env 0 Sample.flood Sample.empty).2 in
  (exists a, (1%N, a) ∈ Alerts.find_active Sample.env Sample.no_filter (0 + 1 * HOUR) d
             /\ a_active a = true)
  /\ forall q a, (1%N, a) ∉ Alerts.find_active Sample.env q (0 + 25 * HOUR) d.
Proof.
  cbv zeta.
  destruct (active_query_contract Sample.env Sample.no_filter (0 + 1 * HOUR)
              (Alerts.create Sample.env 0 Sample.flood Sample.empty).2)
    as (_ & _ & _ & _ & Hdefault).
  destruct (Hdefault 0 Sample.flood Sample.empty
              (Alerts.create Sample.env 0 Sample.flood Sample.empty).2 1%N
              (Alerts.new_alert_doc 0 Sample.flood Sample.here) eq_refl eq_refl)
    as (Hactive & _ & Hin & Hout).
  split; [|exact Hout].
  eexists. split; [|exact Hactive]. apply Hin. vm_compute. lia.
Defined.

End ActiveQuery.

(** ** What each step of the report pipeline leaves untouched *)

Section Frames.

Implicit Types (d : Db) (env : Deployment).

Lemma sendPush_frame userId m d :
  let d' := (NotificationService.sendPushNotification userId m d).2 in
  users d' = users d /\ reports d' = reports d /\ alerts d' = alerts d
  /\ next_id d' = next_id d
  /\ (notifications d' = notifications d
      \/ exists n, notifications d' = notifications d ++ [n] /\ n_userId n = userId).
Proof.
  unfold NotificationService.sendPushNotification.
  destruct (users d !! userId) as [u|]; cbn; [|by auto 6].
  destruct (u_push u); cbn; [|by auto 6].
  destruct (Schema.validate_notification _); cbn; [|by auto 6].
  repeat split. right. by eexists.
Qed.

(** Sending to a list of users one after the other: the notifications
    added are all for users of the list. *)
Lemma send_all_frame {A} (who : A -> Id) (msg : A -> NotificationService.Message)
    (l : list A) d :
  let d' := foldl (λ acc x, (NotificationService.sendPushNotification (who x) (msg x) acc).2) d l in
  users d' = users d /\ reports d' = reports d /\ alerts d' = alerts d
  /\ next_id d' = next_id d
  /\ exists new, notifications d' = notifications d ++ new
                 /\ Forall (λ n, exists x, x ∈ l /\ n_userId n = who x) new.
Proof.
  revert d. induction l as [|x l IH]; intros d; cbn.
  - repeat split. exists []. split; [by rewrite app_nil_r|constructor].
  - destruct (sendPush_frame (who x) (msg x) d) as (Hu & Hr & Ha & Hi & Hn).
    destruct (IH (NotificationService.sendPushNotification (who x) (msg x) d).2)
      as (Hu' & Hr' & Ha' & Hi' & new & Hnew & Hall).
    cbn in *. rewrite Hu', Hr', Ha', Hi', Hnew.
    repeat split; try assumption.
    assert (Hweak : Forall (λ n, exists y, y ∈ x :: l /\ n_userId n = who y) new).
    { eapply Forall_impl; [exact Hall|]. intros n (y & Hy & Hny). exists y.
      split; [by right|assumption]. }
    destruct Hn as [-> | (n & -> & Hn)].
    + by exists new.
    + exists (n :: new). split; [by rewrite <- app_assoc|].
      constructor; [|assumption]. exists x. split; [by left|assumption].
Qed.

Lemma streak_frame env now userId d :
  let d' := Reports.checkAndUpdateStreak env now userId d in
  reports d' = reports d /\ alerts d' = alerts d
  /\ notifications d' = notifications d /\ next_id d' = next_id d.
Proof.
  unfold Reports.checkAndUpdateStreak.
  destruct (0 <? _)%nat; [|done]. by destruct (users d !! userId).
Qed.

Lemma achievements_frame env userId d :
  let d' := Reports.checkAchievements env userId d in
  reports d' = reports d /\ alerts d' = alerts d /\ next_id d' = next_id d.
Proof.
  unfold Reports.checkAchievements.
  destruct (users d !! userId) as [u|]; [|done].
  destruct (Reports.achievements _ _ _ _) as [|b l]; [done|].
  destruct (reqInScope env); [|done].
  match goal with
  | |- context [foldl ?f ?d0 ?l0] =>
      destruct (send_all_frame (λ _ : string, userId)
                  (λ achievement, NotificationService.mkMessage
                     "Achievement Unlocked!"
                     (String.append "You earned the "
                        (String.append (Js.quoted achievement) " badge! +100 points"))
                     "achievement" "medium" None) l0 d0) as (_ & Hr & Ha & Hi & _)
  end.
  cbn in *. by rewrite Hr, Ha, Hi.
Qed.

Lemma autoGenerate_frame env now report d :
  let d' := Reports.autoGenerateAlert env now report d in
  users d' = users d /\ reports d' = reports d /\ notifications d' = notifications d.
Proof.
  unfold Reports.autoGenerateAlert.
  destruct (Js.lt _ _); [done|].
  unfold Alerts.save_new.
  destruct (_ && _); [|done]. by destruct (reqInScope env).
Qed.

Lemma notifyNearby_frame env id report d :
  let d' := Reports.notifyNearbyUsers env id report d in
  users d' = users d /\ reports d' = reports d /\ alerts d' = alerts d.
Proof.
  unfold Reports.notifyNearbyUsers.
  destruct (String.eqb _ _); [done|].
  destruct (reqInScope env); [|done].
  match goal with
  | |- context [foldl _ d ?l0] =>
      destruct (send_all_frame (λ x : Id * User, x.1)
                  (λ _, NotificationService.mkMessage
                     (String.append (Js.toUpperCase (r_severity report)) " Report Nearby")
                     (String.append (r_type report) " reported within 10km of your location")
                     "community" (r_severity report) (Some id)) l0 d) as (Hu & Hr & Ha & _)
  end.
  by cbn in *.
Qed.

End Frames.

(** ** Report submission *)

Section Submission.

Implicit Types (d : Db) (env : Deployment) (req : Reports.Request) (ai : option AiAnalysis).

(** The presence check refuses before anything is touched. *)
Lemma submit_missing_coordinates env now req ai d :
  coordinates_missing (Reports.req_location req) = true ->
  Reports.submit env now req ai d = (Status400 "Valid location coordinates required", d).
Proof. intros Hmiss. unfold Reports.submit. by rewrite Hmiss. Qed.

Lemma submit_status400 env now req ai d msg :
  (Reports.submit env now req ai d).1 = Status400 msg ->
  coordinates_missing (Reports.req_location req) = true.
Proof.
  unfold Reports.submit.
  destruct (coordinates_missing _); [done|].
  destruct (_ ≫= point_of) as [p|]; [|by destruct (Reports.req_type req)].
  destruct (Reports.req_type req) as [type|]; [|discriminate].
  destruct (Reports.save_new _ _ _) as [[id d1]|]; [|discriminate].
  match goal with
  | |- context [Reports.totalPoints ?t ?s ?f] =>
      destruct (Reports.totalPoints t s f); [|discriminate]
  end.
  by destruct (_ !! _).
Qed.

Lemma coordinates_present l x y :
  loc_lng l = Some x -> loc_lat l = Some y -> ~ x == 0 -> ~ y == 0 ->
  coordinates_missing (Some l) = false /\ point_of l = Some (mkPoint x y).
Proof.
  intros Hx Hy Hx0 Hy0. unfold coordinates_missing, point_of. rewrite Hx, Hy. cbn.
  split; [|reflexivity].
  destruct (Qeq_bool x 0) eqn:Ex; [by apply Qeq_bool_iff in Ex|].
  destruct (Qeq_bool y 0) eqn:Ey; [by apply Qeq_bool_iff in Ey|].
  reflexivity.
Qed.

(** What a successful [POST /] has done to the reports and to the author. *)
Lemma submit_created env now req ai d id points total d' :
  Reports.submit env now req ai d = (ReportCreated id points total, d') ->
  exists l p type u,
    Reports.req_location req = Some l /\ point_of l = Some p
    /\ Reports.req_type req = Some type
    /\ Schema.validate_report (Reports.new_report_doc now req type p) = true
    /\ index_accepts env p = true
    /\ id = next_id d
    /\ Reports.totalPoints type (default EmptyString (Reports.req_severity req))
         (Reports.req_files req) = Some points
    /\ users d !! Reports.req_userId req = Some u
    /\ total = u_points u + points
    /\ reports d' = <[id := stored_report now req type p ai]> (reports d).
Proof.
  unfold Reports.submit.
  destruct (coordinates_missing _); [discriminate|].
  destruct (Reports.req_location req) as [l|]; [|discriminate].
  change (Some l ≫= point_of) with (point_of l).
  destruct (point_of l) as [p|] eqn:Hp; [|by destruct (Reports.req_type req)].
  destruct (Reports.req_type req) as [type|]; [|discriminate].
  unfold Reports.save_new.
  destruct (Schema.validate_report _) eqn:Hv; cbn [andb]; [|discriminate].
  change (r_location (Reports.new_report_doc now req type p)) with p.
  destruct (index_accepts env p) eqn:Hi; [|discriminate].
  match goal with
  | |- context [Reports.totalPoints ?t ?s ?f] =>
      destruct (Reports.totalPoints t s f) as [pts|] eqn:Hpts; [|discriminate]
  end.
  match goal with
  | |- context [Reports.notifyNearbyUsers env ?i ?r ?d6] =>
      destruct (notifyNearby_frame env i r d6) as (_ & Hr7 & _);
      generalize dependent (Reports.notifyNearbyUsers env i r d6)
  end.
  intros d7 Hr7.
  match type of Hr7 with
  | _ = reports (if ?c then Reports.autoGenerateAlert env now ?r ?d5 else _) =>
      assert (Hr6 : reports d7 = reports d5)
        by (rewrite Hr7; destruct c; [apply autoGenerate_frame|reflexivity]);
      clear Hr7
  end.
  match type of Hr6 with
  | _ = reports (Reports.checkAchievements env ?u ?d4) =>
      destruct (achievements_frame env u d4) as (Hr5 & _); cbn in Hr5;
      rewrite Hr5 in Hr6; clear Hr5
  end.
  match type of Hr6 with
  | _ = reports (Reports.checkAndUpdateStreak env now ?u ?d3) =>
      destruct (streak_frame env now u d3) as (Hr4 & _); cbn in Hr4;
      rewrite Hr4 in Hr6; clear Hr4
  end.
  destruct ai as [a|]; cbn in Hr6 |- *; rewrite lookup_alter_eq;
    (destruct (users d !! Reports.req_userId req) as [u|] eqn:Hu; [|discriminate]);
    cbn; intros [= <- <- <- <-];
    exists l, p, type, u; repeat split; try assumption;
    cbn; rewrite Hr6; first [apply insert_insert_eq | reflexivity].
Qed.

(** C9: a report whose latitude or longitude is the number 0 is refused
    with "Valid location coordinates required" and the database is left as
    it was: the presence test takes 0 for a missing value. *)
Theorem zero_coordinate_rejected env now req ai d l :
  Reports.req_location req = Some l ->
  (exists q, loc_lat l = Some q /\ q == 0) \/ (exists q, loc_lng l = Some q /\ q == 0) ->
  Reports.submit env now req ai d = (Status400 "Valid location coordinates required", d).
Proof.
  intros Hl Hzero. apply submit_missing_coordinates.
  rewrite Hl. unfold coordinates_missing, Js.truthy_num.
  destruct Hzero as [(q & -> & Hq) | (q & -> & Hq)];
    apply Qeq_bool_iff in Hq; rewrite Hq; cbn.
  - reflexivity.
  - apply orb_true_r.
Qed.

Lemma zero_coordinate_rejected_witness :
  Reports.submit Sample.env 1000
    (Sample.report_at "pollution" "medium" (0 # 1) (72 # 1) []) None Sample.people
  = (Status400 "Valid location coordinates required", Sample.people).
Proof.
  eapply zero_coordinate_rejected.
  - reflexivity.
  - left. exists (0 # 1). split; reflexivity.
Defined.

(** C2, as stated, fails: the handlers test that the coordinates are there,
    not where they are.  A report at latitude 95 is stored as submitted and
    answered 201, and so is an alert at longitude 200.  Where the [2dsphere]
    index is built the same requests fail at the write and are answered 500,
    not with the validation error. *)
Lemma out_of_range_accepted_counterexample :
  let req := Sample.report_at "weather" "high" (95 # 1) (10 # 1) [] in
  let body := Alerts.mkBody (Some "flood"%string) (Some "high"%string)
                (Some "River flood"%string) (Some "Water rising"%string)
                (Some (mkLocation (Some (19 # 1)) (Some (200 # 1)) None None))
                None None None [] (Some "sensor"%string) None in
  (Qle_bool (95 # 1) 90 = false
   /\ exists id points total d',
        Reports.submit Sample.env 1000 req None Sample.people
        = (ReportCreated id points total, d')
        /\ r_location <$> reports d' !! id = Some (mkPoint (10 # 1) (95 # 1)))
  /\ (Qle_bool (200 # 1) 180 = false
      /\ exists id a d',
           Alerts.create Sample.env 1000 body Sample.empty = (AlertCreated id a, d')
           /\ a_coordinates <$> alerts d' !! id = Some (mkPoint (200 # 1) (19 # 1)))
  /\ Reports.submit Sample.env_indexed 1000 req None Sample.people
     = (Status500, Sample.people)
  /\ Alerts.create Sample.env_indexed 1000 body Sample.empty = (Status500, Sample.empty).
Proof.
  cbv zeta. split; [|split; [|split]].
  - split; [reflexivity|].
    do 4 eexists. split; [vm_compute; reflexivity|]. vm_compute. reflexivity.
  - split; [reflexivity|].
    do 3 eexists. split; [vm_compute; reflexivity|]. vm_compute. reflexivity.
  - reflexivity.
  - reflexivity.
Qed.

(** C2, amended: a location whose latitude and longitude are both numbers
    other than 0 is never answered with the validation error, whatever its
    range, by report submission or by alert creation; what gets stored has
    the coordinates exactly as submitted, longitude first, never clamped;
    and where the [2dsphere] index is built an out-of-range position makes
    the write fail, which the handler answers with status 500 and an
    unchanged database. *)
Theorem coordinates_checked_for_presence_only env now l x y :
  loc_lng l = Some x -> loc_lat l = Some y -> ~ x == 0 -> ~ y == 0 ->
  (forall req ai d,
     Reports.req_location req = Some l ->
     (forall msg, (Reports.submit env now req ai d).1 <> Status400 msg)
     /\ (forall id points total d',
           Reports.submit env now req ai d = (ReportCreated id points total, d') ->
           r_location <$> reports d' !! id = Some (mkPoint x y))
     /\ (geoIndexed env = true -> Schema.geo_valid (mkPoint x y) = false ->
         Reports.submit env now req ai d = (Status500, d)))
  /\ (forall b d,
        Alerts.b_coordinates b = Some l ->
        (forall msg, (Alerts.create env now b d).1 <> Status400 msg)
        /\ (forall id a d',
              Alerts.create env now b d = (AlertCreated id a, d') ->
              a_coordinates a = mkPoint x y
              /\ a_coordinates <$> alerts d' !! id = Some (mkPoint x y))
        /\ (geoIndexed env = true -> Schema.geo_valid (mkPoint x y) = false ->
            Alerts.create env now b d = (Status500, d))).
Proof.
  intros Hx Hy Hx0 Hy0.
  destruct (coordinates_present l x y Hx Hy Hx0 Hy0) as [Hpresent Hpoint].
  split.
  - intros req ai d Hl. split; [|split].
    + intros msg Hresp. apply submit_status400 in Hresp. congruence.
    + intros id points total d' Hsubmit.
      destruct (submit_created _ _ _ _ _ _ _ _ _ Hsubmit)
        as (l' & p & type & u & Hl' & Hp & _ & _ & _ & _ & _ & _ & _ & Hreports).
      assert (l' = l) as -> by congruence.
      assert (p = mkPoint x y) as -> by congruence.
      rewrite Hreports, lookup_insert_eq. by destruct ai.
    + intros Hindexed Hrange. unfold Reports.submit.
      rewrite Hl, Hpresent. change (Some l ≫= point_of) with (point_of l). rewrite Hpoint.
      destruct (Reports.req_type req) as [type|]; [|reflexivity].
      unfold Reports.save_new, index_accepts.
      change (r_location (Reports.new_report_doc now req type (mkPoint x y)))
        with (mkPoint x y).
      by rewrite Hindexed, Hrange, andb_false_r.
  - intros b d Hl. split; [|split].
    + intros msg. unfold Alerts.create. rewrite Hl, Hpresent.
      change (Some l ≫= point_of) with (point_of l). rewrite Hpoint.
      by destruct (Alerts.save_new _ _ _) as [[id d1]|].
    + intros id a d' Hcreate.
      destruct (create_created _ _ _ _ _ _ _ Hcreate)
        as (l' & pt & Hl' & Hpt & -> & _ & _ & -> & ->).
      assert (l' = l) as -> by congruence.
      cbn. rewrite lookup_insert_eq. cbn. split; congruence.
    + intros Hindexed Hrange. unfold Alerts.create.
      rewrite Hl, Hpresent. change (Some l ≫= point_of) with (point_of l). rewrite Hpoint.
      unfold Alerts.save_new, index_accepts.
      change (a_coordinates (Alerts.new_alert_doc now b (mkPoint x y)))
        with (mkPoint x y).
      by rewrite Hindexed, Hrange, andb_false_r.
Qed.

Lemma coordinates_checked_for_presence_only_witness :
  (forall msg,
     (Reports.submit Sample.env_indexed 1000
        (Sample.report_at "weather" "high" (95 # 1) (10 # 1) []) None Sample.people).1
     <> Status400 msg)
  /\ Reports.submit Sample.env_indexed 1000
       (Sample.report_at "weather" "high" (95 # 1) (10 # 1) []) None Sample.people
     = (Status500, Sample.people).
Proof.
  destruct (coordinates_checked_for_presence_only Sample.env_indexed 1000
              (mkLocation (Some (95 # 1)) (Some (10 # 1)) None None) (10 # 1) (95 # 1))
    as [Hreports _]; try reflexivity; try (intros Hq; discriminate Hq).
  destruct (Hreports (Sample.report_at "weather" "high" (95 # 1) (10 # 1) []) None
              Sample.people eq_refl) as (Hno400 & _ & H500).
  split; [exact Hno400|]. apply H500; reflexivity.
Defined.

(** *** Points *)

Lemma includes_In (l : list string) (s : string) :
  Js.includes l s = true -> In s l.
Proof.
  unfold Js.includes. intros Hex. apply existsb_exists in Hex as (x & Hin & Heq).
  apply String.eqb_eq in Heq. by subst.
Qed.

(** On every type and severity of the schema and up to five attachments the
    binary64 computation of the code gives the exact floor. *)
Lemma totalPoints_exact (type severity : string) (files : list Attachment) :
  In type Schema.report_types -> In severity Schema.severities ->
  (length files <= 5)%nat ->
  Reports.totalPoints type severity files = spec_points type severity (length files).
Proof.
  intros Htype Hsev Hlen.
  destruct files as [|? [|? [|? [|? [|? [|? ?]]]]]]; cbn [length] in Hlen; [..|lia];
    cbn in Htype, Hsev;
    repeat (destruct Htype as [<- | Htype]; [|]); try contradiction;
    repeat (destruct Hsev as [<- | Hsev]; [|]); try contradiction;
    vm_compute; reflexivity.
Qed.

End Submission.

(** ** Streaks, votes, escalation and nearby notification *)

Section Pipeline.

Implicit Types (d : Db) (env : Deployment) (report : Report) (u : User).



(** C7: a second vote by the same user is refused and changes nothing; a
    first vote adds one to the matching tally, records the voter, and
    credits the author two points exactly when the vote is helpful. *)
Theorem vote_rule userId reportId (helpful : bool) d report :
  reports d !! reportId = Some report ->
  (userId ∈ r_voters report ->
   Reports.vote userId reportId helpful d
   = (Status400 "You have already voted on this report", d))
  /\ (userId ∉ r_voters report ->
      exists report' d',
        Reports.vote userId reportId helpful d
        = (VoteRecorded (r_helpful report') (r_notHelpful report') (r_voters report'), d')
        /\ reports d' = <[reportId := report']> (reports d)
        /\ r_helpful report' = r_helpful report + (if helpful then 1 else 0)
        /\ r_notHelpful report' = r_notHelpful report + (if helpful then 0 else 1)
        /\ r_voters report' = r_voters report ++ [userId]
        /\ r_userId report' = r_userId report
        /\ users d' = (if helpful
                       then alter (Reports.add_points 2) (r_userId report) (users d)
                       else users d)
        /\ forall author, users d !! r_userId report = Some author ->
             u_points <$> users d' !! r_userId report
             = Some (u_points author + (if helpful then 2 else 0))).
Proof.
  intros Hfind. unfold Reports.vote. rewrite Hfind.
  assert (Hdec : existsb (N.eqb userId) (r_voters report) = true <-> userId ∈ r_voters report).
  { rewrite existsb_exists, list_elem_of_In. split.
    - intros (x & Hin & Heq). apply N.eqb_eq in Heq. by subst.
    - intros Hin. exists userId. split; [assumption|apply N.eqb_refl]. }
  split.
  - intros Hvoted. apply Hdec in Hvoted. by rewrite Hvoted.
  - intros Hfresh.
    destruct (existsb (N.eqb userId) (r_voters report)) eqn:Hex.
    { exfalso. apply Hfresh, Hdec. reflexivity. }
    exists (Reports.with_vote helpful userId report). eexists. split; [reflexivity|].
    destruct helpful; cbn; repeat split; try lia.
    + intros author Hauthor. by rewrite lookup_alter_eq, Hauthor.
    + intros author Hauthor. rewrite Hauthor. cbn. f_equal. lia.
Qed.

Lemma vote_rule_witness :
  Reports.vote 2%N 5%N true voted_db
  = (Status400 "You have already voted on this report", voted_db)
  /\ exists report' d',
       Reports.vote 3%N 5%N true voted_db
       = (VoteRecorded (r_helpful report') (r_notHelpful report') (r_voters report'), d')
       /\ r_helpful report' = 2
       /\ r_voters report' = [2%N; 3%N]
       /\ u_points <$> users d' !! 1%N = Some 102.
Proof.
  destruct (vote_rule 2%N 5%N true voted_db
              (Reports.with_vote true 2%N
                 (Reports.new_report_doc 0
                    (Sample.report_at "erosion" "low" (19 # 1) (72 # 1) []) "erosion"
                    Sample.here)) eq_refl) as [Hdup _].
  destruct (vote_rule 3%N 5%N true voted_db
              (Reports.with_vote true 2%N
                 (Reports.new_report_doc 0
                    (Sample.report_at "erosion" "low" (19 # 1) (72 # 1) []) "erosion"
                    Sample.here)) eq_refl) as [_ Hnew].
  split.
  - apply Hdup. apply list_elem_of_here.
  - destruct Hnew as (report' & d' & Hvote & _ & Hh & _ & Hv & Ha & _ & Hpts).
    + intros Hin. apply list_elem_of_In in Hin. cbn in Hin. destruct Hin as [Hin|[]].
      discriminate Hin.
    + exists report', d'. split; [exact Hvote|]. split; [exact Hh|]. split; [exact Hv|].
      exact (Hpts Sample.ann eq_refl).
Defined.

(** *** Escalation of a critical report *)

(** The alert [autoGenerateAlert] builds never passes [save]: its
    [evacuationZones] holds a string where the schema wants sub-documents. *)
Lemma autoGenerateAlert_stores_nothing env now report d :
  Reports.autoGenerateAlert env now report d = d.
Proof.
  unfold Reports.autoGenerateAlert.
  destruct (Js.lt _ _); [reflexivity|].
  unfold Alerts.save_new, Schema.validate_alert.
  cbn [a_evacuationZones forallb Schema.zone_casts andb].
  by rewrite andb_false_r.
Qed.

(** The report types the alert schema does not know. *)
Lemma report_types_unknown_to_alerts :
  List.filter (λ t, negb (Js.includes Schema.alert_types t)) Schema.report_types
  = ["weather"; "wildlife"; "infrastructure"]%string.
Proof. reflexivity. Qed.

(** C4 at the failing input: a critical weather report whose AI analysis
    comes back with confidence 85 is stored and answered 201, the escalation
    test passes, and no alert exists afterwards: the alert built from the
    report has type "weather", which the alert schema refuses, and a string
    among its evacuation zones.  This holds with and without a binding for
    [req] in the helpers. *)
Theorem critical_weather_report_raises_no_alert :
  let req := Sample.report_at "weather" "critical" (19 # 1) (72 # 1) [] in
  let ai := Some (Sample.confident (85 # 1)) in
  (String.eqb "critical" "critical" && Js.gt (ai ≫= ai_confidence) 80 = true)
  /\ Js.includes Schema.alert_types "weather" = false
  /\ (exists id points total d',
        Reports.submit Sample.env 1000 req ai Sample.people
        = (ReportCreated id points total, d')
        /\ (reports d' !! id ≫= r_aiAnalysis) ≫= ai_confidence = Some (85 # 1)
        /\ alerts d' = ∅)
  /\ (exists id points total d',
        Reports.submit Sample.env_req 1000 req ai Sample.people
        = (ReportCreated id points total, d')
        /\ alerts d' = ∅).
Proof.
  cbv zeta. split; [reflexivity|]. split; [reflexivity|]. split.
  - do 4 eexists. split; [vm_compute; reflexivity|]. split; vm_compute; reflexivity.
  - do 4 eexists. split; [vm_compute; reflexivity|]. vm_compute. reflexivity.
Qed.

(** *** Notification of nearby users *)

(** The users the query of [notifyNearbyUsers] selects. *)
Lemma nearbyUsers_spec env report d userId u :
  (userId, u) ∈ Reports.nearbyUsers env report d
  <-> users d !! userId = Some u
      /\ located_within env (r_location report) 10 u = true
      /\ u_community u = true
      /\ userId <> r_userId report.
Proof.
  unfold Reports.nearbyUsers.
  rewrite list_elem_of_In, filter_In, <- list_elem_of_In, elem_of_map_to_list. cbn.
  rewrite !andb_true_iff, negb_true_iff, N.eqb_neq. tauto.
Qed.

(** Whoever [notifyNearbyUsers] notifies was selected by its query, and the
    report is not of severity low. *)
Lemma notified_are_selected env id report d userId :
  userId ∈ notified_by d (Reports.notifyNearbyUsers env id report d) ->
  r_severity report <> "low"%string
  /\ exists u, (userId, u) ∈ Reports.nearbyUsers env report d.
Proof.
  unfold notified_by. intros (n & -> & Hin)%list_elem_of_fmap. revert Hin.
  unfold Reports.notifyNearbyUsers.
  destruct (String.eqb_spec (r_severity report) "low") as [Hlow|Hlow].
  { rewrite drop_all. by intros ?%elem_of_nil. }
  destruct (reqInScope env).
  2:{ rewrite drop_all. by intros ?%elem_of_nil. }
  match goal with
  | |- context [foldl _ d ?l0] =>
      destruct (send_all_frame (λ x : Id * User, x.1)
                  (λ _, NotificationService.mkMessage
                     (String.append (Js.toUpperCase (r_severity report)) " Report Nearby")
                     (String.append (r_type report) " reported within 10km of your location")
                     "community" (r_severity report) (Some id)) l0 d)
        as (_ & _ & _ & _ & new & Hnew & Hall)
  end.
  cbn in Hnew. rewrite Hnew, drop_app_length. intros Hin.
  rewrite Forall_forall in Hall. destruct (Hall n Hin) as ([uid u] & Hx & Hn).
  cbn in Hn. rewrite Hn. split; [assumption|]. by exists u.
Qed.

(** C10: the nearby-user notification never reaches the author of the
    report.  The users its query selects are exactly the stored users within
    10 km of the report who opted into community notifications and are not
    the author; whoever is notified is one of them, and the report is then
    not of severity low. *)
Theorem nearby_notification_excludes_author env id report d :
  (forall userId u,
     (userId, u) ∈ Reports.nearbyUsers env report d
     <-> users d !! userId = Some u
         /\ located_within env (r_location report) 10 u = true
         /\ u_community u = true
         /\ userId <> r_userId report)
  /\ (forall userId,
        userId ∈ notified_by d (Reports.notifyNearbyUsers env id report d) ->
        r_severity report <> "low"%string
        /\ userId <> r_userId report
        /\ exists u, users d !! userId = Some u
                     /\ u_community u = true
                     /\ located_within env (r_location report) 10 u = true)
  /\ r_userId report ∉ notified_by d (Reports.notifyNearbyUsers env id report d).
Proof.
  split; [|split].
  - intros userId u. apply nearbyUsers_spec.
  - intros userId Hin.
    destruct (notified_are_selected _ _ _ _ _ Hin) as (Hlow & u & Hsel).
    apply nearbyUsers_spec in Hsel as (Hu & Hnear & Hopt & Hother).
    split; [assumption|]. split; [assumption|]. by exists u.
  - intros Hin.
    destruct (notified_are_selected _ _ _ _ _ Hin) as (_ & u & Hsel).
    apply nearbyUsers_spec in Hsel as (_ & _ & _ & Hother). by apply Hother.
Qed.

(** Ann reports next to Bob: the query selects Bob alone, and with [req]
    bound in the helpers Bob alone is notified. *)
Lemma nearby_notification_excludes_author_witness :
  let report := Reports.new_report_doc 1000
                  (Sample.report_at "pollution" "high" (19 # 1) (72 # 1) []) "pollution"
                  Sample.here in
  Reports.nearbyUsers Sample.env report Sample.people = [(2%N, Sample.bob)]
  /\ notified_by Sample.people
       (Reports.notifyNearbyUsers Sample.env_req 10%N report Sample.people) = [2%N]
  /\ (r_severity report <> "low"%string
      /\ 2%N <> r_userId report
      /\ exists u, users Sample.people !! 2%N = Some u
                   /\ u_community u = true
                   /\ located_within Sample.env_req (r_location report) 10 u = true).
Proof.
  cbv zeta. split; [vm_compute; reflexivity|]. split; [vm_compute; reflexivity|].
  destruct (nearby_notification_excludes_author Sample.env_req 10%N
              (Reports.new_report_doc 1000
                 (Sample.report_at "pollution" "high" (19 # 1) (72 # 1) []) "pollution"
                 Sample.here)
              Sample.people) as (_ & Hnotified & _).
  apply Hnotified. vm_compute. apply list_elem_of_here.
Defined.

End Pipeline.

(** * Further properties of the code

    ** Alerts: writes, deactivation, expiry and the order of the listing *)

Section AlertWrites.

Implicit Types (d : Db) (a : Alert) (id : Id) (p : Alerts.Patch) (now : Time).






(** X2: [PUT /:id] and [DELETE /:id] write one alert and nothing else: the
    set of stored alert ids stays the same (nothing is created, nothing is
    removed, not even by [DELETE]), every other alert, the users, the reports
    and the notifications are untouched, and [DELETE] keeps every field of
    the alert but [active] and [updatedAt].  An unknown id is answered 404
    with the database as it was. *)
Theorem alert_writes_are_local now id p d :
  (alerts d !! id = None ->
   Alerts.update now id p d = (Status404 "Alert not found", d)
   /\ Alerts.deactivate now id d = (Status404 "Alert not found", d))
  /\ (forall d', d' = (Alerts.update now id p d).2 \/ d' = (Alerts.deactivate now id d).2 ->
        dom (alerts d') = dom (alerts d)
        /\ (forall j, j <> id -> alerts d' !! j = alerts d !! j)
        /\ users d' = users d /\ reports d' = reports d
        /\ notifications d' = notifications d /\ next_id d' = next_id d)
  /\ (forall a, alerts d !! id = Some a ->
        exists a', alerts (Alerts.deactivate now id d).2 !! id = Some a'
                   /\ a' = Alerts.apply_patch now
                             (Alerts.mkPatch None None None None None None None (Some false)
                                None None) a).
Proof.
  split; [|split].
  - intros Hnone. unfold Alerts.update, Alerts.deactivate. by rewrite Hnone.
  - intros d' Hd'.
    assert (Hcases : d' = d \/ exists a a', alerts d !! id = Some a
              /\ alerts d' = <[id := a']> (alerts d)
              /\ users d' = users d /\ reports d' = reports d
              /\ notifications d' = notifications d /\ next_id d' = next_id d).
    { unfold Alerts.update, Alerts.deactivate in Hd'.
      destruct (alerts d !! id) as [a|] eqn:Hfind.
      - right. exists a. destruct Hd' as [-> | ->]; eexists; cbn; repeat split; reflexivity.
      - left. by destruct Hd' as [-> | ->]. }
    destruct Hcases as [-> | (a & a' & Hfind & Ha & Hu & Hr & Hn & Hi)].
    + by repeat split.
    + rewrite Ha. repeat split; try assumption.
      * apply dom_insert_lookup_L. by exists a.
      * intros j Hj. by rewrite lookup_insert_ne.
  - intros a Hfind. eexists. split; [by apply deactivate_found|reflexivity].
Qed.

(** X3: expiry is not final.  An active alert whose [expiresAt] has passed is
    selected again by the active-alerts query as soon as an update moves
    [expiresAt] beyond the query time. *)
Theorem update_revives_expired env now id p d a e t :
  alerts d !! id = Some a ->
  a_active a = true ->
  Alerts.p_active p <> Some false ->
  Alerts.p_expiresAt p = Some e ->
  t < e ->
  exists a', (id, a') ∈ Alerts.selected env Sample.no_filter t (Alerts.update now id p d).2
             /\ a_expiresAt a' = Some e.
Proof.
  intros Hfind Hon Hpatch He Hlt.
  exists (Alerts.apply_patch now p a). split.
  - apply selected_spec. split; [by apply update_found|].
    eapply matches_no_filter_intro; [| |exact Hlt].
    + rewrite apply_patch_active, Hon.
      by destruct (Alerts.p_active p) as [[|]|].
    + cbn. by rewrite He.
  - cbn. by rewrite He.
Qed.

Lemma update_revives_expired_witness :
  let d := (Alerts.create Sample.env 0 Sample.flood Sample.empty).2 in
  (forall a', (1%N, a') ∉ Alerts.selected Sample.env Sample.no_filter (2 * DAY) d)
  /\ exists a', (1%N, a') ∈ Alerts.selected Sample.env Sample.no_filter (2 * DAY)
                             (Alerts.update (2 * DAY) 1%N (extend_to (3 * DAY)) d).2
                /\ a_expiresAt a' = Some (3 * DAY).
Proof.
  cbv zeta. split.
  - intros a' Hin. apply selected_spec in Hin as [Hfind Hm].
    vm_compute in Hfind. injection Hfind as <-. vm_compute in Hm. discriminate.
  - eapply (update_revives_expired Sample.env (2 * DAY) 1%N (extend_to (3 * DAY))).
    + vm_compute. reflexivity.
    + reflexivity.
    + discriminate.
    + reflexivity.
    + vm_compute. reflexivity.
Defined.

(** X4: [POST /] is all or nothing.  It answers 201 exactly when the
    coordinates are present, the document passes the schema and the geo index
    takes the position; the alert it stores is then active and gets the next
    id.  In every other case the database is left as it was. *)
Theorem create_all_or_nothing env now (b : Alerts.Body) d :
  ((exists id a d', Alerts.create env now b d = (AlertCreated id a, d'))
   <-> exists l pt,
         Alerts.b_coordinates b = Some l
         /\ coordinates_missing (Some l) = false
         /\ point_of l = Some pt
         /\ Schema.validate_alert (Alerts.new_alert_doc now b pt) = true
         /\ index_accepts env pt = true)
  /\ (forall id a d',
        Alerts.create env now b d = (AlertCreated id a, d') ->
        id = next_id d /\ next_id d' = N.succ (next_id d)
        /\ a_active a = true /\ Schema.validate_alert a = true
        /\ alerts d' = <[id := a]> (alerts d))
  /\ ((forall id a, (Alerts.create env now b d).1 <> AlertCreated id a) ->
      (Alerts.create env now b d).2 = d).
Proof.
  split; [|split].
  - split.
    + intros (id & a & d' & Hcreate).
      pose proof Hcreate as Hrun. unfold Alerts.create in Hrun.
      destruct (coordinates_missing (Alerts.b_coordinates b)) eqn:Hmiss; [discriminate|].
      destruct (create_created _ _ _ _ _ _ _ Hcreate)
        as (l & pt & Hl & Hpt & -> & Hv & Hi & _).
      exists l, pt. rewrite Hl in Hmiss. by repeat split.
    + intros (l & pt & Hl & Hmiss & Hpt & Hv & Hi).
      unfold Alerts.create. rewrite Hl, Hmiss.
      change (Some l ≫= point_of) with (point_of l). rewrite Hpt.
      unfold Alerts.save_new.
      change (a_coordinates (Alerts.new_alert_doc now b pt)) with pt.
      rewrite Hv, Hi. cbn [andb]. by do 3 eexists.
  - intros id a d' Hcreate.
    destruct (create_created _ _ _ _ _ _ _ Hcreate)
      as (l & pt & _ & _ & -> & Hv & _ & -> & ->).
    by repeat split.
  - intros Hfail. unfold Alerts.create in *.
    destruct (coordinates_missing _); [reflexivity|].
    destruct (_ ≫= point_of) as [pt|]; [|reflexivity].
    destruct (Alerts.save_new _ _ _) as [[id d1]|]; [|reflexivity].
    exfalso. by eapply Hfail.
Qed.

Lemma create_all_or_nothing_witness :
  Alerts.create Sample.env 0 (with_duration None
    (Alerts.mkBody (Some "weather"%string) (Some "high"%string) (Some "Squall"%string)
       (Some "Gusts"%string) (Some (mkLocation (Some (19 # 1)) (Some (72 # 1)) None None))
       None None None [] (Some "sensor"%string) None)) Sample.empty
  = (Status500, Sample.empty).
Proof.
  match goal with
  | |- Alerts.create ?env ?now ?b ?d = _ =>
      destruct (create_all_or_nothing env now b d) as (_ & _ & Hnothing);
      assert (Hresp : (Alerts.create env now b d).1 = Status500) by reflexivity;
      specialize (Hnothing ltac:(intros id a Hcontra; rewrite Hresp in Hcontra; discriminate));
      destruct (Alerts.create env now b d) as [r d']
  end.
  cbn in *. by subst.
Defined.

End AlertWrites.

Section ListingOrder.

Lemma ascii_compare_gt_trans (x y z : ascii) :
  Ascii.compare x y = Gt -> Ascii.compare y z = Gt -> Ascii.compare x z = Gt.
Proof. unfold Ascii.compare. rewrite !N.compare_gt_iff. lia. Qed.

Lemma ascii_compare_refl (x : ascii) : Ascii.compare x x = Eq.
Proof. apply N.compare_refl. Qed.

Lemma string_compare_refl (s : string) : String.compare s s = Eq.
Proof. induction s as [|x s IH]; cbn; [reflexivity|]. by rewrite ascii_compare_refl. Qed.

Lemma string_compare_gt_trans (a b c : string) :
  String.compare a b = Gt -> String.compare b c = Gt -> String.compare a c = Gt.
Proof.
  revert b c. induction a as [|x a IH]; intros [|y b] [|z c]; cbn; try discriminate; try done.
  destruct (Ascii.compare x y) eqn:Hxy, (Ascii.compare y z) eqn:Hyz; try discriminate.
  - apply Ascii.compare_eq_iff in Hxy as ->. apply Ascii.compare_eq_iff in Hyz as ->.
    rewrite ascii_compare_refl. apply IH.
  - apply Ascii.compare_eq_iff in Hxy as ->. by rewrite Hyz.
  - apply Ascii.compare_eq_iff in Hyz as <-. by rewrite Hxy.
  - by rewrite (ascii_compare_gt_trans x y z Hxy Hyz).
Qed.

#[local] Instance SortsBefore_transitive : Transitive Alerts.SortsBefore.
Proof.
  intros x y z. unfold Alerts.SortsBefore, Alerts.sorts_before.
  destruct (String.compare (a_severity x.2) (a_severity y.2)) eqn:Hxy; [|discriminate|];
    (destruct (String.compare (a_severity y.2) (a_severity z.2)) eqn:Hyz; [|discriminate|]);
    intros Hc1 Hc2.
  - apply String.compare_eq_iff in Hxy. apply String.compare_eq_iff in Hyz.
    rewrite Hxy, Hyz, string_compare_refl. apply Z.leb_le. apply Z.leb_le in Hc1, Hc2. lia.
  - apply String.compare_eq_iff in Hxy. by rewrite Hxy, Hyz.
  - apply String.compare_eq_iff in Hyz. by rewrite <- Hyz, Hxy.
  - by rewrite (string_compare_gt_trans _ _ _ Hxy Hyz).
Qed.

#[local] Instance SortsBefore_total' : Total Alerts.SortsBefore.
Proof.
  intros x y. unfold Alerts.SortsBefore, Alerts.sorts_before.
  rewrite (String.compare_antisym (a_severity y.2) (a_severity x.2)).
  destruct (String.compare (a_severity x.2) (a_severity y.2)); cbn; auto.
  destruct (Z.leb_spec (a_createdAt y.2) (a_createdAt x.2)); [by left|right].
  apply Z.leb_le. lia.
Qed.

(** In the answer of the query whatever stands earlier sorts before
    whatever stands later. *)
Lemma find_active_ordered env q now d i j x y :
  (i < j)%nat ->
  Alerts.find_active env q now d !! i = Some x ->
  Alerts.find_active env q now d !! j = Some y ->
  Alerts.SortsBefore x y.
Proof.
  intros Hij Hi Hj. unfold Alerts.find_active in Hi, Hj.
  set (sorted := merge_sort Alerts.SortsBefore (Alerts.selected env q now d)) in *.
  assert (Hsorted : StronglySorted Alerts.SortsBefore sorted)
    by (apply StronglySorted_merge_sort; apply _).
  apply lookup_take_Some in Hi as [Hi _]. apply lookup_take_Some in Hj as [Hj _].
  rewrite <- (take_drop (S i) sorted) in Hsorted, Hj.
  apply (StronglySorted_app_1_elem_of _ _ _ x y) in Hsorted; [assumption| |].
  - apply list_elem_of_lookup. exists i. rewrite lookup_take_lt by lia. exact Hi.
  - apply list_elem_of_lookup. exists (j - S i)%nat.
    rewrite lookup_app_r in Hj by (rewrite length_take; lia).
    rewrite length_take in Hj.
    assert (Hlen : (S i <= length sorted)%nat).
    { apply lookup_lt_Some in Hi. lia. }
    by replace (S i `min` length sorted)%nat with (S i) in Hj by lia.
Qed.

(** An alert the limit has cut stands, in the order of [sort], after every
    alert that was returned. *)
Lemma returned_before_cut env q now d x z :
  x ∈ Alerts.find_active env q now d ->
  z ∈ Alerts.selected env q now d ->
  z ∉ Alerts.find_active env q now d ->
  Alerts.SortsBefore x z.
Proof.
  unfold Alerts.find_active. intros Hx Hz Hcut.
  set (sorted := merge_sort Alerts.SortsBefore (Alerts.selected env q now d)) in *.
  assert (Hsorted : StronglySorted Alerts.SortsBefore sorted)
    by (apply StronglySorted_merge_sort; apply _).
  assert (Hz' : z ∈ sorted) by (subst sorted; by rewrite merge_sort_Permutation).
  rewrite <- (take_drop 50 sorted) in Hsorted, Hz'.
  apply elem_of_app in Hz' as [Hz'|Hz']; [contradiction|].
  by apply (StronglySorted_app_1_elem_of _ _ _ x z) in Hsorted.
Qed.

(** X5: the listing sorts [severity] as text.  An update can store any text
    as a severity; among alerts whose severity is one of the schema's four,
    the answer of the active-alerts query lists medium first, then low, then
    high, and critical last: no critical alert stands before an alert of
    another of the four severities, and within one severity the newer alert
    comes first.  The limit of fifty cuts the critical ones first: whenever a
    critical alert is returned, every selected alert that was cut and has one
    of the four severities is critical too. *)
Theorem critical_alerts_listed_last env q now d :
  (forall i j x y,
     (i < j)%nat ->
     Alerts.find_active env q now d !! i = Some x ->
     Alerts.find_active env q now d !! j = Some y ->
     Js.includes Schema.severities (a_severity x.2) = true ->
     Js.includes Schema.severities (a_severity y.2) = true ->
     (listing_rank (a_severity x.2) <= listing_rank (a_severity y.2))%nat
     /\ (a_severity x.2 = "critical"%string -> a_severity y.2 = "critical"%string)
     /\ (a_severity x.2 = a_severity y.2 -> a_createdAt y.2 <= a_createdAt x.2))
  /\ (forall x z,
        x ∈ Alerts.find_active env q now d ->
        a_severity x.2 = "critical"%string ->
        z ∈ Alerts.selected env q now d ->
        z ∉ Alerts.find_active env q now d ->
        Js.includes Schema.severities (a_severity z.2) = true ->
        a_severity z.2 = "critical"%string).
Proof.
  split.
  - intros i j x y Hij Hi Hj Hsx Hsy.
    pose proof (find_active_ordered _ _ _ _ _ _ _ _ Hij Hi Hj) as Hord.
    unfold Alerts.SortsBefore, Alerts.sorts_before in Hord.
    apply includes_In in Hsx. apply includes_In in Hsy. cbn in Hsx, Hsy.
    split; [|split].
    + destruct Hsx as [Hx|[Hx|[Hx|[Hx|[]]]]], Hsy as [Hy|[Hy|[Hy|[Hy|[]]]]];
        rewrite <- Hx, <- Hy in *; cbn in *; try lia; discriminate.
    + intros Hcrit. rewrite Hcrit in Hord.
      destruct Hsy as [Hy|[Hy|[Hy|[Hy|[]]]]]; rewrite <- Hy in *; cbn in *;
        try discriminate; reflexivity.
    + intros Hsame. rewrite Hsame, string_compare_refl in Hord. by apply Z.leb_le.
  - intros x z Hx Hcrit Hz Hcut Hsz.
    pose proof (returned_before_cut _ _ _ _ _ _ Hx Hz Hcut) as Hord.
    unfold Alerts.SortsBefore, Alerts.sorts_before in Hord. rewrite Hcrit in Hord.
    apply includes_In in Hsz. cbn in Hsz.
    destruct Hsz as [Hy|[Hy|[Hy|[Hy|[]]]]]; rewrite <- Hy in *; cbn in *;
      try discriminate; reflexivity.
Qed.

Lemma critical_alerts_listed_last_witness :
  (a_severity <$> (snd <$> Alerts.find_active Sample.env Sample.no_filter 2000 two_alerts))
  = ["medium"; "critical"]%string
  /\ (listing_rank "medium" <= listing_rank "critical")%nat
  /\ (1%N, Alerts.new_alert_doc 0 spill Sample.here)
       ∈ Alerts.find_active Sample.env Sample.no_filter 2000 cyclone_season
  /\ (2%N, Alerts.new_alert_doc 1 cyclone Sample.here)
       ∈ Alerts.selected Sample.env Sample.no_filter 2000 cyclone_season
  /\ ((2%N, Alerts.new_alert_doc 1 cyclone Sample.here)
       ∉ Alerts.find_active Sample.env Sample.no_filter 2000 cyclone_season)
  /\ (52%N, Alerts.new_alert_doc 51 cyclone Sample.here)
       ∈ Alerts.find_active Sample.env Sample.no_filter 2000 cyclone_season
  /\ a_severity (Alerts.new_alert_doc 1 cyclone Sample.here) = "critical"%string.
Proof.
  split; [vm_compute; reflexivity|].
  assert (Hres : Alerts.find_active Sample.env Sample.no_filter 2000 two_alerts
                 = [(2%N, Alerts.new_alert_doc 1000 spill Sample.here);
                    (1%N, Alerts.new_alert_doc 0 cyclone Sample.here)])
    by (vm_compute; reflexivity).
  destruct (proj1 (critical_alerts_listed_last Sample.env Sample.no_filter 2000 two_alerts)
              0%nat 1%nat
              (2%N, Alerts.new_alert_doc 1000 spill Sample.here)
              (1%N, Alerts.new_alert_doc 0 cyclone Sample.here)) as (Hrank & _).
  - lia.
  - by rewrite Hres.
  - by rewrite Hres.
  - reflexivity.
  - reflexivity.
  - split; [exact Hrank|].
    split; [apply list_elem_of_lookup; exists 0%nat; vm_compute; reflexivity|].
    assert (Hsel : (2%N, Alerts.new_alert_doc 1 cyclone Sample.here)
                   ∈ Alerts.selected Sample.env Sample.no_filter 2000 cyclone_season)
      by (apply selected_spec; split; vm_compute; reflexivity).
    assert (Hcut : (2%N, Alerts.new_alert_doc 1 cyclone Sample.here)
                   ∉ Alerts.find_active Sample.env Sample.no_filter 2000 cyclone_season).
    { intros Hin. apply (list_elem_of_fmap_2 fst) in Hin. cbn [fst] in Hin.
      revert Hin. apply (bool_decide_unpack _). vm_compute. exact I. }
    assert (Hnew : (52%N, Alerts.new_alert_doc 51 cyclone Sample.here)
                   ∈ Alerts.find_active Sample.env Sample.no_filter 2000 cyclone_season)
      by (apply list_elem_of_lookup; exists 1%nat; vm_compute; reflexivity).
    split; [exact Hsel|]. split; [exact Hcut|]. split; [exact Hnew|].
    exact (proj2 (critical_alerts_listed_last Sample.env Sample.no_filter 2000
                    cyclone_season)
             (52%N, Alerts.new_alert_doc 51 cyclone Sample.here)
             (2%N, Alerts.new_alert_doc 1 cyclone Sample.here)
             Hnew eq_refl Hsel Hcut eq_refl).
Defined.

End ListingOrder.

(** ** Reports: votes and verification *)

Section VotesAndVerification.

Implicit Types (d : Db) (r report : Report).

Lemma voted_iff userId (voters : list Id) :
  existsb (N.eqb userId) voters = true <-> userId ∈ voters.
Proof.
  rewrite existsb_exists, list_elem_of_In. split.
  - intros (x & Hin & Heq). apply N.eqb_eq in Heq. by subst.
  - intros Hin. exists userId. split; [assumption|apply N.eqb_refl].
Qed.




Lemma with_vote_tally_ok helpful userId r :
  tally_ok r -> userId ∉ r_voters r -> tally_ok (Reports.with_vote helpful userId r).
Proof.
  intros (Hh & Hn & Hsum & Hnodup) Hfresh. unfold tally_ok. cbn.
  rewrite length_app. cbn.
  repeat split.
  - destruct helpful; lia.
  - destruct helpful; lia.
  - destruct helpful; lia.
  - apply NoDup_app. split; [assumption|]. split.
    + intros x Hx ->%list_elem_of_singleton. contradiction.
    + apply NoDup_singleton.
Qed.

(** X7: the tallies stay honest.  If for every stored report the two tallies
    are non-negative, add up to the number of recorded voters, and no voter is
    recorded twice, then the same holds after any vote, accepted or refused,
    and after any verification.  A report starts that way. *)
Theorem votes_keep_tallies userId reportId helpful verified d :
  tallies_ok d ->
  tallies_ok (Reports.vote userId reportId helpful d).2
  /\ tallies_ok (Reports.verify reportId verified d).2
  /\ forall now req type p ai, tally_ok (stored_report now req type p ai).
Proof.
  intros Hok. split; [|split].
  - unfold Reports.vote.
    destruct (reports d !! reportId) as [report|] eqn:Hfind; [|exact Hok].
    destruct (existsb _ _) eqn:Hvoted; [exact Hok|].
    assert (Hfresh : userId ∉ r_voters report).
    { intros Hin. apply voted_iff in Hin. congruence. }
    intros id r Hr.
    assert (Hr' : <[reportId := Reports.with_vote helpful userId report]> (reports d) !! id
                  = Some r) by (by destruct helpful).
    destruct (decide (reportId = id)) as [->|Hne].
    + rewrite lookup_insert_eq in Hr'. injection Hr' as <-.
      apply with_vote_tally_ok; [by eapply Hok|assumption].
    + rewrite lookup_insert_ne in Hr' by assumption. by eapply Hok.
  - unfold Reports.verify.
    destruct (reports d !! reportId) as [report|] eqn:Hfind; [|exact Hok].
    intros id r Hr.
    assert (Hr' : <[reportId := Reports.with_verification verified report]> (reports d) !! id
                  = Some r).
    { destruct verified; [|exact Hr].
      change (users (set_reports (insert reportId (Reports.with_verification true report)) d))
        with (users d) in Hr.
      destruct (users d !! r_userId report) as [author|]; [|exact Hr].
      cbv beta iota zeta in Hr. cbn [snd] in Hr.
      match type of Hr with
      | reports (NotificationService.sendPushNotification ?u ?m ?d0).2 !! _ = _ =>
          destruct (sendPush_frame u m d0) as (_ & Hrep & _)
      end.
      cbv zeta in Hrep. rewrite Hrep in Hr. exact Hr. }
    destruct (decide (reportId = id)) as [->|Hne].
    + rewrite lookup_insert_eq in Hr'. injection Hr' as <-.
      exact (Hok _ _ Hfind).
    + rewrite lookup_insert_ne in Hr' by assumption. by eapply Hok.
  - intros now req type p ai. unfold tally_ok.
    destruct ai; cbn; repeat split; try lia; apply NoDup_nil_2.
Qed.

Lemma votes_keep_tallies_witness :
  tallies_ok voted_db
  /\ tallies_ok (Reports.vote 3%N 5%N false voted_db).2.
Proof.
  assert (Hok : tallies_ok voted_db).
  { intros id r Hr.
    destruct (decide (id = 5%N)) as [->|Hne].
    - vm_compute in Hr. injection Hr as <-. unfold tally_ok. cbn.
      repeat split; try lia. apply NoDup_singleton.
    - unfold voted_db in Hr. cbn in Hr. rewrite lookup_singleton_ne in Hr by done.
      discriminate. }
  split; [exact Hok|].
  exact (proj1 (votes_keep_tallies 3%N 5%N false true voted_db Hok)).
Defined.

End VotesAndVerification.

Section Verification.

Implicit Types (d : Db) (report : Report).

(** What a verification with [verified = true] does when the author exists. *)
Lemma verify_accepted reportId d report author :
  reports d !! reportId = Some report ->
  users d !! r_userId report = Some author ->
  let d' := (Reports.verify reportId true d).2 in
  (Reports.verify reportId true d).1
  = Reports.VerifyJson reportId (Reports.with_verification true report)
  /\ reports d' = <[reportId := Reports.with_verification true report]> (reports d)
  /\ users d' = alter (Reports.add_points 25) (r_userId report) (users d)
  /\ alerts d' = alerts d
  /\ notifications d'
     = notifications d
       ++ (if u_push author
           then [mkNotification (r_userId report) "Report Verified!"
                   (NotificationService.m_message (verified_message report))
                   "achievement" "medium" None]
           else []).
Proof.
  intros Hfind Hauthor. unfold Reports.verify. rewrite Hfind.
  change (users (set_reports (insert reportId (Reports.with_verification true report)) d))
    with (users d).
  rewrite Hauthor. cbv beta iota zeta. cbn [fst snd].
  unfold NotificationService.sendPushNotification.
  cbn [users set_users set_reports].
  rewrite lookup_alter_eq, Hauthor. cbn [fmap option_fmap option_map Reports.add_points u_push].
  destruct (u_push author); cbn; repeat split. by rewrite app_nil_r.
Qed.

(** X8: what a verification does.  It always rewrites the report's
    [verified] flag and status and touches no alert.  A rejection changes no
    user and notifies nobody.  An acceptance credits the author exactly 25
    points and notifies the author alone, once, if the author takes push
    notifications; when the author's account is gone the report is still
    marked verified but the answer is status 500.  An unknown report is
    answered 404 with the database as it was. *)
Theorem verify_effects reportId verified d :
  (reports d !! reportId = None ->
   Reports.verify reportId verified d
   = (Reports.VerifyFailed (Status404 "Report not found"), d))
  /\ forall report,
       reports d !! reportId = Some report ->
       let d' := (Reports.verify reportId verified d).2 in
       reports d' = <[reportId := Reports.with_verification verified report]> (reports d)
       /\ r_status (Reports.with_verification verified report)
          = (if verified then "verified" else "rejected")%string
       /\ alerts d' = alerts d
       /\ (verified = false -> users d' = users d /\ notified_by d d' = [])
       /\ (verified = true ->
           forall author, users d !! r_userId report = Some author ->
             u_points <$> users d' !! r_userId report = Some (u_points author + 25)
             /\ (forall other, other <> r_userId report ->
                   users d' !! other = users d !! other)
             /\ notified_by d d' = (if u_push author then [r_userId report] else []))
       /\ (verified = true -> users d !! r_userId report = None ->
           (Reports.verify reportId verified d).1 = Reports.VerifyFailed Status500
           /\ users d' = users d /\ notified_by d d' = []).
Proof.
  split.
  - intros Hnone. unfold Reports.verify. by rewrite Hnone.
  - intros report Hfind d'. subst d'.
    destruct verified.
    + destruct (users d !! r_userId report) as [author|] eqn:Hauthor.
      * destruct (verify_accepted _ _ _ _ Hfind Hauthor) as (_ & Hr & Hu & Ha & Hn).
        cbv zeta in *.
        split; [assumption|]. split; [reflexivity|]. split; [assumption|].
        split; [discriminate|]. split; [|discriminate].
        intros _ author' [= <-]. rewrite Hu. split; [|split].
        -- by rewrite lookup_alter_eq, Hauthor.
        -- intros other Hother. by rewrite lookup_alter_ne.
        -- unfold notified_by. rewrite Hn, drop_app_length. by destruct (u_push author).
      * unfold Reports.verify. rewrite Hfind.
        change (users (set_reports (insert reportId (Reports.with_verification true report)) d))
          with (users d).
        rewrite Hauthor. cbn.
        split; [reflexivity|]. split; [reflexivity|]. split; [reflexivity|].
        split; [discriminate|]. split; [intros _ author [=]|].
        intros _ _. unfold notified_by. cbn. by rewrite drop_all.
    + unfold Reports.verify. rewrite Hfind. cbn.
      split; [reflexivity|]. split; [reflexivity|]. split; [reflexivity|].
      split; [|split; discriminate].
      intros _. split; [reflexivity|]. unfold notified_by. cbn. by rewrite drop_all.
Qed.

(** X9: verification is not guarded against repetition.  Accepting the same
    report twice credits the author 50 points and, if the author takes push
    notifications, sends the notification twice. *)
Theorem verify_twice_credits_twice reportId d report author :
  reports d !! reportId = Some report ->
  users d !! r_userId report = Some author ->
  let d2 := (Reports.verify reportId true (Reports.verify reportId true d).2).2 in
  u_points <$> users d2 !! r_userId report = Some (u_points author + 50)
  /\ notified_by d d2
     = (if u_push author then [r_userId report; r_userId report] else []).
Proof.
  intros Hfind Hauthor d2. subst d2.
  destruct (verify_accepted _ _ _ _ Hfind Hauthor) as (_ & Hr1 & Hu1 & _ & Hn1).
  cbv zeta in *.
  set (d1 := (Reports.verify reportId true d).2) in *.
  assert (Hfind1 : reports d1 !! reportId = Some (Reports.with_verification true report))
    by (by rewrite Hr1, lookup_insert_eq).
  assert (Hauthor1 : users d1 !! r_userId (Reports.with_verification true report)
                     = Some (Reports.add_points 25 author))
    by (cbn; by rewrite Hu1, lookup_alter_eq, Hauthor).
  destruct (verify_accepted _ _ _ _ Hfind1 Hauthor1) as (_ & _ & Hu2 & _ & Hn2).
  cbv zeta in *. split.
  - rewrite Hu2. cbn [r_userId Reports.with_verification].
    rewrite lookup_alter_eq, Hu1, lookup_alter_eq, Hauthor. cbn. f_equal. lia.
  - unfold notified_by. rewrite Hn2, Hn1, <- app_assoc, drop_app_length.
    cbn. by destruct (u_push author).
Qed.

Lemma verify_twice_credits_twice_witness :
  let d2 := (Reports.verify 5%N true (Reports.verify 5%N true Sample.people).2).2 in
  u_points <$> users d2 !! 1%N = Some 150
  /\ notified_by Sample.people d2 = [1%N; 1%N].
Proof.
  exact (verify_twice_credits_twice 5%N Sample.people
           (Reports.new_report_doc 0
              (Sample.report_at "erosion" "low" (19 # 1) (72 # 1) []) "erosion" Sample.here)
           Sample.ann eq_refl eq_refl).
Defined.

End Verification.

(** ** Reports: achievements *)

Section Achievements.

Implicit Types (d : Db) (u : User) (env : Deployment).

Lemma includes_app (l k : list string) (s : string) :
  Js.includes (l ++ k) s = Js.includes l s || Js.includes k s.
Proof. unfold Js.includes. apply existsb_app. Qed.

Lemma includes_false_not_In (l : list string) (s : string) :
  Js.includes l s = false -> ~ In s l.
Proof.
  unfold Js.includes. intros Hfalse Hin.
  assert (Htrue : existsb (String.eqb s) l = true).
  { apply existsb_exists. exists s. split; [assumption|apply String.eqb_refl]. }
  congruence.
Qed.

(** What [checkAchievements] does to the database, in terms of the badges it
    finds earned. *)
Lemma checkAchievements_unfold env userId d u :
  users d !! userId = Some u ->
  let earned := earned_badges userId u d in
  let d' := Reports.checkAchievements env userId d in
  reports d' = reports d /\ alerts d' = alerts d
  /\ users d' = (match earned with
                 | [] => users d
                 | _ :: _ =>
                     <[userId := Reports.add_points (Z.of_nat (length earned) * 100)
                                   (Reports.add_badges earned u)]> (users d)
                 end).
Proof.
  intros Hu earned d'. subst earned d'.
  destruct (achievements_frame env userId d) as (Hr & Ha & _). cbv zeta in Hr, Ha.
  split; [assumption|]. split; [assumption|].
  unfold Reports.checkAchievements, earned_badges, totalReports, verifiedReports,
    weatherReports. rewrite Hu.
  destruct (Reports.achievements _ _ _ _) as [|b l] eqn:Hearned; [reflexivity|].
  destruct (reqInScope env); [|reflexivity].
  match goal with
  | |- users (foldl ?f ?d0 ?l0) = _ =>
      destruct (send_all_frame (λ _ : string, userId)
                  (λ achievement, NotificationService.mkMessage
                     "Achievement Unlocked!"
                     (String.append "You earned the "
                        (String.append (Js.quoted achievement) " badge! +100 points"))
                     "achievement" "medium" None) l0 d0) as (Hus & _)
  end.
  cbv zeta in Hus. exact Hus.
Qed.

(** Every badge found earned is one the user does not hold. *)
Lemma earned_are_new u t v w b :
  In b (Reports.achievements u t v w) -> ~ In b (u_badges u).
Proof.
  unfold Reports.achievements. intros Hin.
  repeat (apply in_app_or in Hin as [Hin|Hin]);
    match type of Hin with
    | In _ (if ?c && negb (Js.includes _ ?name) then _ else _) =>
        destruct (Js.includes (u_badges u) name) eqn:Hhas;
        [rewrite andb_false_r in Hin; destruct Hin
        |destruct c; cbn in Hin; [destruct Hin as [<-|[]]|destruct Hin];
         by apply includes_false_not_In]
    end.
Qed.

(** The badges found earned are distinct. *)
Lemma earned_NoDup u t v w : List.NoDup (Reports.achievements u t v w).
Proof.
  unfold Reports.achievements.
  repeat match goal with
         | |- context [if ?c then [?b] else []] =>
             tryif is_var c then fail else (let x := fresh "c" in generalize c; intros x)
         end.
  destruct c, c0, c1, c2, c3; cbn;
    repeat (constructor; [cbn; intuition discriminate|]); constructor.
Qed.

(** Once the earned badges are held, nothing more is earned from the same
    counts. *)
Lemma nothing_earned_twice u t v w k :
  Reports.achievements
    (Reports.add_points k (Reports.add_badges (Reports.achievements u t v w) u)) t v w = [].
Proof.
  unfold Reports.achievements.
  cbn [u_badges u_streak Reports.add_points Reports.add_badges].
  repeat match goal with
         | |- context [?c && negb (Js.includes _ ?name)] =>
             tryif is_var c then fail else (let x := fresh "c" in generalize c; intros x)
         end.
  rewrite !includes_app.
  destruct (Js.includes (u_badges u) "First Reporter"),
           (Js.includes (u_badges u) "Weather Watcher"),
           (Js.includes (u_badges u) "Community Hero"),
           (Js.includes (u_badges u) "Accuracy Expert"),
           (Js.includes (u_badges u) "Streak Master");
    destruct c, c0, c1, c2, c3; reflexivity.
Qed.

(** X10: evaluating the achievements twice awards nothing the second time.
    Run on the database it has just left, [checkAchievements] changes
    nothing: no badge is added twice and no points are credited twice. *)
Theorem checkAchievements_idempotent env userId d :
  Reports.checkAchievements env userId (Reports.checkAchievements env userId d)
  = Reports.checkAchievements env userId d.
Proof.
  destruct (users d !! userId) as [u|] eqn:Hu.
  2:{ unfold Reports.checkAchievements at 2. rewrite Hu.
      unfold Reports.checkAchievements. by rewrite Hu. }
  destruct (checkAchievements_unfold env userId d u Hu) as (Hr & _ & Hus).
  cbv zeta in Hr, Hus.
  set (d1 := Reports.checkAchievements env userId d) in *.
  destruct (earned_badges userId u d) as [|b l] eqn:Hearned.
  - assert (Hd1 : d1 = d).
    { subst d1. unfold Reports.checkAchievements. rewrite Hu.
      unfold earned_badges, totalReports, verifiedReports, weatherReports in Hearned.
      by rewrite Hearned. }
    rewrite Hd1. fold d1. exact Hd1.
  - unfold Reports.checkAchievements at 1.
    rewrite Hus, lookup_insert_eq.
    unfold Reports.count_reports. rewrite Hr.
    fold (Reports.count_reports (λ r, (r_userId r =? userId)%N) d).
    fold (Reports.count_reports (λ r, (r_userId r =? userId)%N && r_verified r) d).
    fold (Reports.count_reports
            (λ r, (r_userId r =? userId)%N && String.eqb (r_type r) "weather") d).
    fold (totalReports userId d) (verifiedReports userId d) (weatherReports userId d).
    rewrite <- Hearned. unfold earned_badges.
    by rewrite nothing_earned_twice.
Qed.

(** X11: achievements only add.  After [checkAchievements] a stored user
    holds the former badges followed by the newly earned ones, none of which
    was held before; a badge list without repetition stays without
    repetition; the points grow by exactly 100 per new badge; streak and
    everything else of the user, all other users, the reports and the alerts
    are as before. *)
Theorem achievements_only_add env userId d u :
  users d !! userId = Some u ->
  let d' := Reports.checkAchievements env userId d in
  exists earned u',
    users d' !! userId = Some u'
    /\ earned = earned_badges userId u d
    /\ u_badges u' = u_badges u ++ earned
    /\ (forall b, In b earned -> ~ In b (u_badges u))
    /\ (List.NoDup (u_badges u) -> List.NoDup (u_badges u'))
    /\ u_points u' = u_points u + 100 * Z.of_nat (length earned)
    /\ u_streak u' = u_streak u /\ u_name u' = u_name u
    /\ u_lastActive u' = u_lastActive u
    /\ (forall other, other <> userId -> users d' !! other = users d !! other)
    /\ reports d' = reports d /\ alerts d' = alerts d.
Proof.
  intros Hu d'. subst d'.
  destruct (checkAchievements_unfold env userId d u Hu) as (Hr & Ha & Hus).
  cbv zeta in Hr, Ha, Hus.
  exists (earned_badges userId u d).
  assert (Hnew : forall b, In b (earned_badges userId u d) -> ~ In b (u_badges u))
    by (intros b; apply earned_are_new).
  assert (Hdistinct : List.NoDup (u_badges u) ->
                      List.NoDup (u_badges u ++ earned_badges userId u d)).
  { intros Hnd. apply List.NoDup_app; [assumption|apply earned_NoDup|].
    intros b Hb Hb'. by apply (Hnew b). }
  rewrite Hus, Hr, Ha.
  destruct (earned_badges userId u d) as [|b l] eqn:Hearned.
  - exists u. rewrite app_nil_r in *. cbn. repeat split; try assumption; try lia; done.
  - eexists. rewrite lookup_insert_eq. split; [reflexivity|]. cbn.
    repeat split; try assumption; try lia.
    intros other Hother. by rewrite lookup_insert_ne.
Qed.

Lemma achievements_only_add_witness :
  exists u',
    users (Reports.checkAchievements Sample.env 1%N weather_db) !! 1%N = Some u'
    /\ u_badges u' = ["Weather Watcher"]%string
    /\ u_points u' = 200.
Proof.
  destruct (achievements_only_add Sample.env 1%N weather_db Sample.ann eq_refl)
    as (earned & u' & Hu' & Hearned & Hb & _ & _ & Hp & _).
  assert (He : earned = ["Weather Watcher"%string])
    by (rewrite Hearned; vm_compute; reflexivity).
  exists u'. split; [exact Hu'|]. rewrite Hb, Hp, He. split; reflexivity.
Defined.

End Achievements.

(** ** Reports: more on submission *)

Section SubmissionEdges.

Implicit Types (d : Db) (env : Deployment) (req : Reports.Request) (ai : option AiAnalysis).

(** X12: the AI analysis is not needed for the answer.  Whether
    [analyzeReport] fails or returns any analysis, the response to a
    submission (status, report id, points earned, new total) is the same. *)
Theorem submit_answer_ignores_ai env now req ai d :
  (Reports.submit env now req ai d).1 = (Reports.submit env now req None d).1.
Proof.
  unfold Reports.submit.
  destruct (coordinates_missing _); [reflexivity|].
  destruct (_ ≫= point_of) as [p|]; [|reflexivity].
  destruct (Reports.req_type req) as [type|]; [|reflexivity].
  destruct (Reports.save_new _ _ _) as [[id d1]|]; [|reflexivity].
  match goal with
  | |- context [Reports.totalPoints ?t ?s ?f] =>
      destruct (Reports.totalPoints t s f) as [pts|]; [|reflexivity]
  end.
  destruct ai as [a|]; [|reflexivity].
  cbn [users set_users set_reports].
  by destruct (alter _ _ (users d1) !! Reports.req_userId req).
Qed.

(** X13: a submission never changes the alerts.  Whatever the report, its
    severity and the AI's confidence, the alert collection after [POST /] is
    the one before: the alert that [autoGenerateAlert] builds carries a string
    among its evacuation zones and does not pass [save]. *)
Theorem submit_stores_no_alert env now req ai d :
  alerts (Reports.submit env now req ai d).2 = alerts d.
Proof.
  unfold Reports.submit.
  destruct (coordinates_missing _); [reflexivity|].
  destruct (_ ≫= point_of) as [p|]; [|by destruct (Reports.req_type req)].
  destruct (Reports.req_type req) as [type|]; [|reflexivity].
  unfold Reports.save_new.
  destruct (_ && _); [|reflexivity].
  match goal with
  | |- context [Reports.totalPoints ?t ?s ?f] =>
      destruct (Reports.totalPoints t s f) as [pts|]; [|by destruct ai]
  end.
  rewrite autoGenerateAlert_stores_nothing.
  match goal with
  | |- context [Reports.notifyNearbyUsers env ?i ?r (if ?c then ?d5 else ?d5)] =>
      replace (if c then d5 else d5) with d5 by (by destruct c);
      destruct (notifyNearby_frame env i r d5) as (_ & _ & Ha7);
      destruct (users _ !! Reports.req_userId req); cbn [snd alerts emit];
      cbv zeta in Ha7; rewrite Ha7
  end;
    match goal with
    | |- alerts (Reports.checkAchievements env ?u ?d4) = _ =>
        destruct (achievements_frame env u d4) as (_ & Ha5 & _); cbv zeta in Ha5;
        rewrite Ha5
    end;
    match goal with
    | |- alerts (Reports.checkAndUpdateStreak env now ?u ?d3) = _ =>
        destruct (streak_frame env now u d3) as (_ & Ha4 & _); cbv zeta in Ha4;
        rewrite Ha4
    end;
    by destruct ai.
Qed.

Lemma totalPoints_some (type severity : string) (files : list Attachment) :
  In type Schema.report_types -> In severity Schema.severities ->
  (length files <= 5)%nat ->
  exists points, Reports.totalPoints type severity files = Some points.
Proof.
  intros Ht Hs Hlen. rewrite (totalPoints_exact _ _ _ Ht Hs Hlen).
  unfold spec_points. cbn in Hs.
  destruct Hs as [<-|[<-|[<-|[<-|[]]]]]; cbn; by eexists.
Qed.

Lemma In_includes (l : list string) (s : string) : In s l -> Js.includes l s = true.
Proof.
  intros Hin. unfold Js.includes. apply existsb_exists.
  exists s. split; [assumption|apply String.eqb_refl].
Qed.

(** X14: a report the schema refuses is answered 500 and leaves no trace.
    With the coordinates present, a missing type, a type or severity outside
    the schema's lists, or a missing or empty description makes [POST /]
    answer status 500 with the database as it was: no report, no points, no
    streak, no notification. *)
Theorem submit_invalid_stores_nothing env now req ai d :
  coordinates_missing (Reports.req_location req) = false ->
  Reports.req_type req = None
  \/ Js.includes Schema.report_types (default EmptyString (Reports.req_type req)) = false
  \/ Js.includes Schema.severities (default EmptyString (Reports.req_severity req)) = false
  \/ default EmptyString (Reports.req_description req) = EmptyString ->
  Reports.submit env now req ai d = (Status500, d).
Proof.
  intros Hpresent Hbad. unfold Reports.submit. rewrite Hpresent.
  destruct (_ ≫= point_of) as [p|]; [|by destruct (Reports.req_type req)].
  destruct (Reports.req_type req) as [type|]; [|reflexivity].
  assert (Hinvalid : Schema.validate_report (Reports.new_report_doc now req type p) = false).
  { unfold Schema.validate_report. cbn [r_type r_severity r_description Reports.new_report_doc].
    destruct Hbad as [Hbad|[Hbad|[Hbad|Hbad]]].
    - discriminate.
    - change (Js.includes Schema.report_types type = false) in Hbad. by rewrite Hbad.
    - by rewrite Hbad, andb_false_r.
    - rewrite Hbad. cbn. apply andb_false_r. }
  unfold Reports.save_new. by rewrite Hinvalid.
Qed.

Lemma submit_invalid_stores_nothing_witness :
  Reports.submit Sample.env 1000 (Sample.report_at "flood" "high" (19 # 1) (72 # 1) [])
    None Sample.people
  = (Status500, Sample.people).
Proof.
  apply submit_invalid_stores_nothing.
  - reflexivity.
  - right. left. reflexivity.
Defined.

(** X15: a report from a user who is not stored is kept, yet answered 500.
    When the request is valid (at most five attachments) and the token's user
    has no document, [POST /] stores the report and then fails on
    [user.name]: the answer is status 500, no user is changed, and the report
    is in the collection. *)
Theorem submit_unknown_author_stores_report env now req ai d l p type :
  Reports.req_location req = Some l ->
  coordinates_missing (Some l) = false ->
  point_of l = Some p ->
  Reports.req_type req = Some type ->
  Schema.validate_report (Reports.new_report_doc now req type p) = true ->
  index_accepts env p = true ->
  (length (Reports.req_files req) <= 5)%nat ->
  users d !! Reports.req_userId req = None ->
  (Reports.submit env now req ai d).1 = Status500
  /\ reports (Reports.submit env now req ai d).2
     = <[next_id d := stored_report now req type p ai]> (reports d)
  /\ forall userId, users (Reports.submit env now req ai d).2 !! userId = users d !! userId.
Proof.
  intros Hl Hpresent Hp Htype Hvalid Hindex Hlen Hnobody.
  pose proof Hvalid as Hv. unfold Schema.validate_report in Hv.
  apply andb_prop in Hv as [Hv _]. apply andb_prop in Hv as [Ht Hs].
  apply includes_In in Ht. apply includes_In in Hs.
  cbn [r_type r_severity Reports.new_report_doc] in Ht, Hs.
  destruct (totalPoints_some _ _ _ Ht Hs Hlen) as [points Hpoints].
  unfold Reports.submit. rewrite Hl, Hpresent.
  change (Some l ≫= point_of) with (point_of l). rewrite Hp, Htype.
  unfold Reports.save_new. rewrite Hvalid.
  change (r_location (Reports.new_report_doc now req type p)) with p.
  rewrite Hindex. cbn [andb]. rewrite Hpoints.
  rewrite autoGenerateAlert_stores_nothing.
  match goal with
  | |- context [Reports.notifyNearbyUsers env ?i ?r (if ?c then ?d5 else ?d5)] =>
      replace (if c then d5 else d5) with d5 by (by destruct c);
      destruct (notifyNearby_frame env i r d5) as (Hu7 & Hr7 & _);
      cbv zeta in Hu7, Hr7;
      generalize dependent (Reports.notifyNearbyUsers env i r d5)
  end.
  intros d7 Hu7 Hr7.
  match type of Hr7 with
  | _ = reports (Reports.checkAchievements env ?u (Reports.checkAndUpdateStreak env now ?u ?d3)) =>
      assert (Hu3 : users d3 !! u = None);
      [ cbn [users set_users]; rewrite lookup_alter_eq;
        destruct ai; cbn [users set_reports bump_id]; by rewrite Hnobody |];
      assert (Hd4 : Reports.checkAndUpdateStreak env now u d3 = d3)
        by (unfold Reports.checkAndUpdateStreak; rewrite Hu3; by destruct (0 <? _)%nat);
      rewrite Hd4 in Hu7, Hr7;
      assert (Hd5 : Reports.checkAchievements env u d3 = d3)
        by (unfold Reports.checkAchievements; by rewrite Hu3);
      rewrite Hd5 in Hu7, Hr7
  end.
  cbn [users set_users] in Hu7. cbn [reports set_users] in Hr7.
  match goal with
  | |- context [match ?o with Some _ => _ | None => _ end] =>
      assert (Hlook : o = None)
        by (cbn [users set_users]; rewrite lookup_alter_eq;
            destruct ai; cbn [users set_reports bump_id]; by rewrite Hnobody);
      rewrite Hlook
  end.
  cbn [fst snd]. split; [reflexivity|]. split.
  - rewrite Hr7. destruct ai; cbn; [apply insert_insert_eq|reflexivity].
  - intros userId. rewrite Hu7.
    destruct (decide (userId = Reports.req_userId req)) as [->|Hne].
    + rewrite lookup_alter_eq. destruct ai; cbn; by rewrite Hnobody.
    + rewrite lookup_alter_ne by done. by destruct ai.
Qed.

Lemma submit_unknown_author_stores_report_witness :
  (Reports.submit Sample.env 1000
     (Reports.mkRequest 7%N (Some "erosion"%string) (Some "low"%string)
        (Some "cliff fall"%string) None
        (Some (mkLocation (Some (19 # 1)) (Some (72 # 1)) None None)) [])
     None Sample.people).1 = Status500
  /\ reports (Reports.submit Sample.env 1000
       (Reports.mkRequest 7%N (Some "erosion"%string) (Some "low"%string)
          (Some "cliff fall"%string) None
          (Some (mkLocation (Some (19 # 1)) (Some (72 # 1)) None None)) [])
       None Sample.people).2 !! 10%N
     = Some (Reports.new_report_doc 1000
               (Reports.mkRequest 7%N (Some "erosion"%string) (Some "low"%string)
                  (Some "cliff fall"%string) None
                  (Some (mkLocation (Some (19 # 1)) (Some (72 # 1)) None None)) [])
               "erosion" Sample.here).
Proof.
  destruct (submit_unknown_author_stores_report Sample.env 1000
              (Reports.mkRequest 7%N (Some "erosion"%string) (Some "low"%string)
                 (Some "cliff fall"%string) None
                 (Some (mkLocation (Some (19 # 1)) (Some (72 # 1)) None None)) [])
              None Sample.people
              (mkLocation (Some (19 # 1)) (Some (72 # 1)) None None) Sample.here "erosion")
    as (Hresp & Hreports & _); try reflexivity.
  - cbn. lia.
  - split; [exact Hresp|]. rewrite Hreports. apply lookup_insert_eq.
Defined.

End SubmissionEdges.

Section SubmissionEffects.

Implicit Types (d : Db) (env : Deployment) (req : Reports.Request) (ai : option AiAnalysis).


Lemma streak_keeps_credit env now userId d u :
  users d !! userId = Some u ->
  exists u4,
    users (Reports.checkAndUpdateStreak env now userId d) !! userId = Some u4
    /\ u_points u4 = u_points u /\ u_badges u4 = u_badges u
    /\ forall other, other <> userId ->
          users (Reports.checkAndUpdateStreak env now userId d) !! other = users d !! other.
Proof.
  intros Hu. unfold Reports.checkAndUpdateStreak.
  destruct (0 <? Reports.todayReports env now userId d)%nat; [|by exists u].
  rewrite Hu. cbn [users set_users]. eexists. rewrite lookup_insert_eq.
  split; [reflexivity|]. split; [reflexivity|]. split; [reflexivity|].
  intros other Hother. by rewrite lookup_insert_ne.
Qed.

(** What a submission answered 201 has stored for its author: the points of
    the answer, and 100 more for every badge it earned. *)
Lemma submit_credits_author env now req ai d id points total d' :
  Reports.submit env now req ai d = (ReportCreated id points total, d') ->
  exists u u' earned,
    users d !! Reports.req_userId req = Some u
    /\ users d' !! Reports.req_userId req = Some u'
    /\ u_badges u' = u_badges u ++ earned
    /\ u_points u' = u_points u + points + 100 * Z.of_nat (length earned)
    /\ forall other, other <> Reports.req_userId req -> users d' !! other = users d !! other.
Proof.
  unfold Reports.submit.
  destruct (coordinates_missing _); [discriminate|].
  destruct (Reports.req_location req) as [l|]; [|discriminate].
  change (Some l ≫= point_of) with (point_of l).
  destruct (point_of l) as [p|] eqn:Hp; [|by destruct (Reports.req_type req)].
  destruct (Reports.req_type req) as [type|]; [|discriminate].
  unfold Reports.save_new.
  destruct (_ && _); [|discriminate].
  match goal with
  | |- context [Reports.totalPoints ?t ?s ?f] =>
      destruct (Reports.totalPoints t s f) as [pts|] eqn:Hpts; [|discriminate]
  end.
  rewrite autoGenerateAlert_stores_nothing.
  match goal with
  | |- context [Reports.notifyNearbyUsers env ?i ?r (if ?c then ?d5 else ?d5)] =>
      replace (if c then d5 else d5) with d5 by (by destruct c);
      destruct (notifyNearby_frame env i r d5) as (Hu7 & _ & _);
      cbv zeta in Hu7;
      generalize dependent (Reports.notifyNearbyUsers env i r d5)
  end.
  intros d7 Hu7.
  match type of Hu7 with
  | _ = users (Reports.checkAchievements env ?u (Reports.checkAndUpdateStreak env now ?u ?d3)) =>
      set (D3 := d3) in *; set (uid := u) in *
  end.
  assert (HuD3 : users D3 = alter (Reports.award pts now) uid (users d))
    by (subst D3; by destruct ai).
  change (users (set_users (alter (Reports.award pts now) uid) _)) with (users D3).
  rewrite HuD3, lookup_alter_eq.
  destruct (users d !! uid) as [u|] eqn:Hu; [|discriminate].
  cbn [fmap option_fmap option_map]. intros [= <- <- <- <-].
  assert (Hu3 : users D3 !! uid = Some (Reports.award pts now u))
    by (by rewrite HuD3, lookup_alter_eq, Hu).
  destruct (streak_keeps_credit env now uid D3 _ Hu3) as (u4 & Hu4 & Hp4 & Hb4 & Ho4).
  set (D4 := Reports.checkAndUpdateStreak env now uid D3) in *.
  destruct (checkAchievements_unfold env uid D4 _ Hu4) as (_ & _ & Hu5).
  cbv zeta in Hu5. rewrite Hu5 in Hu7.
  exists u. cbn [users emit]. rewrite Hu7.
  exists (match earned_badges uid u4 D4 with
          | [] => u4
          | e :: es => Reports.add_points (Z.of_nat (length (e :: es)) * 100)
                         (Reports.add_badges (e :: es) u4)
          end).
  exists (earned_badges uid u4 D4).
  split; [reflexivity|].
  assert (Hothers : forall other, other <> uid -> users D4 !! other = users d !! other).
  { intros other Hother. by rewrite Ho4, HuD3, lookup_alter_ne. }
  cbn [Reports.award Reports.with_lastActive Reports.add_points u_points u_badges] in Hp4, Hb4.
  destruct (earned_badges _ _ _) as [|e es].
  - rewrite Hu4, app_nil_r. cbn [length]. repeat split; try assumption; lia.
  - rewrite lookup_insert_eq.
    cbn [u_badges u_points Reports.add_points Reports.add_badges].
    rewrite Hp4, Hb4. repeat split; try lia.
    intros other Hother. rewrite lookup_insert_ne by done. by apply Hothers.
Qed.

(** C5: the points a submission awards are
    [floor((basePoints(type) + 5 × attachments) × multiplier(severity))] with
    multipliers 1, 1.2, 1.5 and 2, and they are awarded to the author: the
    author's total in the answer is the former total plus these points, and
    the points stored for the author after the submission are the former
    points plus these points, plus 100 for every badge the submission earned;
    no other user's document changes.  (The upload middleware admits at most
    five attachments.) *)
Theorem points_awarded env now req ai d id points total d' :
  (length (Reports.req_files req) <= 5)%nat ->
  Reports.submit env now req ai d = (ReportCreated id points total, d') ->
  exists type severity u u' earned,
    Reports.req_type req = Some type
    /\ Reports.req_severity req = Some severity
    /\ spec_points type severity (length (Reports.req_files req)) = Some points
    /\ users d !! Reports.req_userId req = Some u
    /\ total = u_points u + points
    /\ users d' !! Reports.req_userId req = Some u'
    /\ u_badges u' = u_badges u ++ earned
    /\ u_points u' = u_points u + points + 100 * Z.of_nat (length earned)
    /\ forall other, other <> Reports.req_userId req -> users d' !! other = users d !! other.
Proof.
  intros Hlen Hsubmit.
  destruct (submit_created _ _ _ _ _ _ _ _ _ Hsubmit)
    as (l & p & type & u & _ & _ & Htype & Hvalid & _ & _ & Hpoints & Hu & Htotal & _).
  destruct (submit_credits_author _ _ _ _ _ _ _ _ _ Hsubmit)
    as (u0 & u' & earned & Hu0 & Hu' & Hbadges & Hstored & Hothers).
  rewrite Hu in Hu0. injection Hu0 as <-.
  unfold Schema.validate_report in Hvalid.
  apply andb_prop in Hvalid as [Hvalid _]. apply andb_prop in Hvalid as [Ht Hs].
  apply includes_In in Ht. apply includes_In in Hs. cbn [r_type r_severity Reports.new_report_doc] in Ht, Hs.
  destruct (Reports.req_severity req) as [severity|] eqn:Hsev.
  - exists type, severity, u, u', earned. repeat split; try assumption.
    rewrite <- Hpoints. symmetry. by apply totalPoints_exact.
  - cbn in Hs. repeat (destruct Hs as [Hs | Hs]; [discriminate|]). contradiction.
Qed.

(** The example of the design document: weather, high, three attachments. *)
Lemma points_awarded_witness :
  let out := Reports.submit Sample.env 1000
               (Sample.report_at "weather" "high" (19 # 1) (72 # 1)
                  [Sample.photo; Sample.photo; Sample.photo]) None Sample.people in
  out.1 = ReportCreated 10 60 160
  /\ Reports.basePoints "weather" = 25
  /\ spec_points "weather" "high" 3 = Some 60
  /\ 160 = u_points Sample.ann + 60
  /\ u_points <$> users out.2 !! 1%N = Some (u_points Sample.ann + 60)
  /\ users out.2 !! 2%N = Some Sample.bob.
Proof.
  cbv zeta.
  destruct (points_awarded Sample.env 1000
              (Sample.report_at "weather" "high" (19 # 1) (72 # 1)
                 [Sample.photo; Sample.photo; Sample.photo]) None Sample.people
              10%N 60 160
              (Reports.submit Sample.env 1000
                 (Sample.report_at "weather" "high" (19 # 1) (72 # 1)
                    [Sample.photo; Sample.photo; Sample.photo]) None Sample.people).2)
    as (type & severity & u & u' & earned & Ht & Hs & Hp & Hu & Htot & Hu' & Hb & Hst & Ho).
  - cbn. lia.
  - vm_compute. reflexivity.
  - injection Ht as <-. injection Hs as <-.
    change (Reports.req_userId _) with 1%N in Hu, Hu', Ho.
    split; [vm_compute; reflexivity|]. split; [reflexivity|]. split; [exact Hp|].
    split; [reflexivity|].
    split; [|rewrite (Ho 2%N) by discriminate; reflexivity].
    assert (Hann : u = Sample.ann) by (vm_compute in Hu; by injection Hu as <-).
    subst u.
    assert (Hnone : earned = []).
    { assert (Hsame : u_badges u' = u_badges Sample.ann).
      { assert (Hfind : u_badges <$> Some u' = Some (u_badges Sample.ann))
          by (rewrite <- Hu'; vm_compute; reflexivity).
        by injection Hfind. }
      rewrite Hb in Hsame. destruct earned; [reflexivity|].
      apply (f_equal length) in Hsame. rewrite length_app in Hsame. cbn in Hsame. lia. }
    rewrite Hu'. cbn [fmap option_fmap option_map]. rewrite Hst, Hnone. reflexivity.
Defined.



End SubmissionEffects.

(** ** The notification service: bulk alerts and weather priority *)

Section BulkAlerts.

Import NotificationService.

Implicit Types (d : Db) (userIds : list Id).

Lemma batches_from_concat fuel i userIds :
  (length userIds - i <= fuel)%nat ->
  concat (batches_from fuel i userIds) = drop i userIds.
Proof.
  revert i. induction fuel as [|fuel IH]; intros i Hfuel; cbn [batches_from].
  - symmetry. apply drop_ge. lia.
  - destruct (Nat.ltb_spec i (length userIds)) as [Hlt|Hge].
    + change (concat (?x :: ?xs)) with (x ++ concat xs).
      rewrite IH by (unfold batchSize; lia).
      rewrite <- (drop_drop userIds batchSize i). apply take_drop.
    + symmetry. by apply drop_ge.
Qed.

Lemma batches_from_lookup fuel i userIds k batch :
  batches_from fuel i userIds !! k = Some batch ->
  batch = take batchSize (drop (i + k * batchSize) userIds)
  /\ (i + k * batchSize < length userIds)%nat.
Proof.
  revert i k. induction fuel as [|fuel IH]; intros i k; cbn [batches_from].
  { rewrite lookup_nil. discriminate. }
  destruct (Nat.ltb_spec i (length userIds)) as [Hlt|Hge].
  2:{ rewrite lookup_nil. discriminate. }
  destruct k as [|k]; cbn.
  - intros [= <-]. rewrite Nat.add_0_r. by split.
  - intros Hk. apply IH in Hk as [-> Hk].
    replace (i + batchSize + k * batchSize)%nat with (i + (batchSize + k * batchSize))%nat
      in * by lia.
    by split.
Qed.

Lemma batches_from_length fuel i userIds :
  (length userIds - i <= fuel)%nat ->
  length (batches_from fuel i userIds) = ((length userIds - i + 99) / 100)%nat.
Proof.
  revert i. induction fuel as [|fuel IH]; intros i Hfuel; cbn [batches_from].
  - replace (length userIds - i)%nat with 0%nat by lia. reflexivity.
  - destruct (Nat.ltb_spec i (length userIds)) as [Hlt|Hge].
    + change (length (?x :: ?xs)) with (S (length xs)).
      rewrite IH by (unfold batchSize; lia). unfold batchSize.
      destruct (Nat.le_gt_cases 100 (length userIds - i)) as [Hbig|Hsmall].
      * replace (length userIds - i + 99)%nat
          with ((length userIds - (i + 100) + 99) + 1 * 100)%nat by lia.
        rewrite Nat.div_add by lia. lia.
      * replace (length userIds - (i + 100))%nat with 0%nat by lia.
        replace ((0 + 99) / 100)%nat with 0%nat by reflexivity.
        apply (Nat.div_unique _ _ _ (length userIds - i - 1)); lia.
    + replace (length userIds - i)%nat with 0%nat by lia. reflexivity.
Qed.

(** X17: the batches of [sendBulkAlert] cut the list of users and lose
    nobody.  Put end to end the batches give back the list, in order; the
    k-th batch is the slice of (at most) 100 users starting at position
    100 k, so every batch holds between 1 and 100 users and only the last may
    hold fewer than 100; there are ceil(n / 100) of them.  The loop's counter
    never runs out before the list does. *)
Theorem batches_partition userIds :
  concat (batches userIds) = userIds
  /\ length (batches userIds) = ((length userIds + 99) / 100)%nat
  /\ forall k batch,
       batches userIds !! k = Some batch ->
       batch = take 100 (drop (k * 100) userIds)
       /\ (1 <= length batch <= 100)%nat
       /\ ((S k < length (batches userIds))%nat -> length batch = 100%nat).
Proof.
  unfold batches. split; [|split].
  - rewrite batches_from_concat by lia. reflexivity.
  - rewrite batches_from_length by lia. by rewrite Nat.sub_0_r.
  - intros k batch Hk.
    apply batches_from_lookup in Hk as [-> Hk]. unfold batchSize in *. cbn [plus] in *.
    split; [reflexivity|]. rewrite length_take, length_drop. split; [lia|].
    rewrite batches_from_length by lia. rewrite Nat.sub_0_r. intros Hmore.
    pose proof (Nat.div_mod_eq (length userIds + 99) 100) as Hdiv.
    lia.
Qed.

Lemma foldl_concat {A B} (f : A -> B -> A) (ls : list (list B)) (a : A) :
  foldl (λ acc l, foldl f acc l) a ls = foldl f a (concat ls).
Proof.
  revert a. induction ls as [|l ls IH]; intros a; cbn; [reflexivity|].
  by rewrite foldl_app, IH.
Qed.

(** One [sendEmergencyAlert]: at most one notification, for that user. *)
Lemma sendEmergencyAlert_step userId alertId (alert : Alert) d :
  Schema.required (a_title alert) = true ->
  Schema.required (a_description alert) = true ->
  let d' := (sendEmergencyAlert userId alertId alert d).2 in
  users d' = users d /\ reports d' = reports d /\ alerts d' = alerts d
  /\ notifications d'
     = notifications d
       ++ (if takes_push d userId
           then [mkNotification userId (a_title alert) (a_description alert)
                   "emergency" "critical" (Some alertId)]
           else []).
Proof.
  intros Ht Hd. unfold sendEmergencyAlert, takes_push, sendPushNotification.
  destruct (users d !! userId) as [u|]; cbn; [|by rewrite app_nil_r].
  destruct (u_push u); cbn; [|by rewrite app_nil_r].
  unfold Schema.validate_notification. cbn. rewrite Ht, Hd. by cbn.
Qed.

Lemma send_each_once alertId (alert : Alert) userIds d :
  Schema.required (a_title alert) = true ->
  Schema.required (a_description alert) = true ->
  let d' := foldl (λ acc userId, (sendEmergencyAlert userId alertId alert acc).2) d userIds in
  users d' = users d /\ reports d' = reports d /\ alerts d' = alerts d
  /\ notifications d'
     = notifications d
       ++ ((λ userId, mkNotification userId (a_title alert) (a_description alert)
                        "emergency" "critical" (Some alertId))
             <$> List.filter (takes_push d) userIds).
Proof.
  intros Ht Hd. revert d. induction userIds as [|userId userIds IH]; intros d; cbn.
  - by rewrite app_nil_r.
  - destruct (sendEmergencyAlert_step userId alertId alert d Ht Hd) as (Hu & Hr & Ha & Hn).
    destruct (IH (sendEmergencyAlert userId alertId alert d).2) as (Hu' & Hr' & Ha' & Hn').
    cbv zeta in *. rewrite Hu', Hr', Ha', Hn', Hn.
    repeat split; try assumption.
    assert (Hsame : takes_push (sendEmergencyAlert userId alertId alert d).2 = takes_push d).
    { unfold takes_push. by rewrite Hu. }
    rewrite Hsame, <- app_assoc. by destruct (takes_push d userId).
Qed.

(** X18: a bulk alert reaches every listed user who can be reached, once per
    listing.  For an alert with a title and a description, the users for whom
    [sendBulkAlert] stores a notification are, up to order, exactly the listed
    users that exist and take push notifications, each as many times as the
    list names them, whatever the batch boundaries; users, reports and alerts
    are untouched and the result is [true]. *)
Theorem bulk_alert_reaches_each_once userIds alertId (alert : Alert) d :
  Schema.required (a_title alert) = true ->
  Schema.required (a_description alert) = true ->
  let d' := (sendBulkAlert userIds alertId alert d).2 in
  (sendBulkAlert userIds alertId alert d).1 = true
  /\ notified_by d d' ≡ₚ List.filter (takes_push d) userIds
  /\ users d' = users d /\ reports d' = reports d /\ alerts d' = alerts d.
Proof.
  intros Ht Hd d'. subst d'. unfold sendBulkAlert. cbn [fst snd].
  rewrite (foldl_concat (λ acc userId, (sendEmergencyAlert userId alertId alert acc).2)).
  unfold batches. rewrite batches_from_concat by lia. rewrite drop_0.
  destruct (send_each_once alertId alert userIds d Ht Hd) as (Hu & Hr & Ha & Hn).
  cbv zeta in *. split; [reflexivity|]. split; [|by repeat split].
  unfold notified_by. rewrite Hn, drop_app_length, <- list_fmap_compose.
  by rewrite list_fmap_id.
Qed.

Lemma bulk_alert_reaches_each_once_witness :
  notified_by three_people
    (sendBulkAlert [3%N; 2%N; 9%N; 1%N; 2%N] 4%N
       (Alerts.new_alert_doc 0 cyclone Sample.here) three_people).2
  ≡ₚ [2%N; 1%N; 2%N]
  /\ (sendBulkAlert [3%N; 2%N; 9%N; 1%N; 2%N] 4%N
        (Alerts.new_alert_doc 0 cyclone Sample.here) three_people).1 = true.
Proof.
  destruct (bulk_alert_reaches_each_once [3%N; 2%N; 9%N; 1%N; 2%N] 4%N
              (Alerts.new_alert_doc 0 cyclone Sample.here) three_people eq_refl eq_refl)
    as (Htrue & Hwho & _).
  split; [|exact Htrue]. exact Hwho.
Defined.

End BulkAlerts.

(** ** The priority of a weather alert *)

Section WeatherPriority.

Import NotificationService.

Lemma gt_rises x y c : rises x y -> Js.gt x c = true -> Js.gt y c = true.
Proof.
  destruct x as [p|], y as [q|]; cbn; try done.
  intros Hpq Hp. apply negb_true_iff, not_true_iff_false.
  apply negb_true_iff, not_true_iff_false in Hp.
  rewrite Qle_bool_iff in *. intros Hq. apply Hp. by apply Qle_trans with q.
Qed.

Lemma lt_falls x y c : falls x y -> Js.lt x c = true -> Js.lt y c = true.
Proof.
  destruct x as [p|], y as [q|]; cbn; try done.
  intros Hpq Hp. apply negb_true_iff, not_true_iff_false.
  apply negb_true_iff, not_true_iff_false in Hp.
  rewrite Qle_bool_iff in *. intros Hq. apply Hp. by apply Qle_trans with q.
Qed.

Lemma trigger_rougher data data' w p h :
  at_least_as_rough data data' ->
  Js.gt (windSpeed data) w || Js.lt (pressure data) p || Js.gt (waveHeight data) h = true ->
  Js.gt (windSpeed data') w || Js.lt (pressure data') p || Js.gt (waveHeight data') h = true.
Proof.
  intros (Hw & Hp & Hh). rewrite !orb_true_iff.
  intros [[H|H]|H]; eauto using gt_rises, lt_falls.
Qed.

(** X19: rougher weather never gets a lower priority.  [getWeatherPriority]
    answers "critical", "high" or "medium" (never "low", and always a priority
    the notification schema admits); readings that are all missing give
    "medium"; and when wind and waves are no lower and pressure no higher, the
    priority is no lower either. *)
Theorem weather_priority_monotone data data' :
  at_least_as_rough data data' ->
  (priority_level (getWeatherPriority data)
   <= priority_level (getWeatherPriority data'))%nat
  /\ Js.includes Schema.severities (getWeatherPriority data) = true
  /\ getWeatherPriority data <> "low"%string
  /\ getWeatherPriority (mkWeatherData None None None) = "medium"%string.
Proof.
  intros Hrough.
  pose proof (trigger_rougher data data' 100 980 5 Hrough) as Hcrit.
  pose proof (trigger_rougher data data' 60 1000 3 Hrough) as Hhigh.
  unfold getWeatherPriority.
  destruct (Js.gt (windSpeed data) 100 || Js.lt (pressure data) 980
            || Js.gt (waveHeight data) 5).
  { rewrite Hcrit by reflexivity. repeat split; [cbn; lia | discriminate]. }
  destruct (Js.gt (windSpeed data) 60 || Js.lt (pressure data) 1000
            || Js.gt (waveHeight data) 3).
  { rewrite Hhigh by reflexivity.
    destruct (Js.gt (windSpeed data') 100 || Js.lt (pressure data') 980
              || Js.gt (waveHeight data') 5);
      repeat split; (cbn; lia) || discriminate. }
  repeat split; [cbn; lia | discriminate].
Qed.

Lemma weather_priority_monotone_witness :
  at_least_as_rough (mkWeatherData (Some (70 # 1)) (Some (1005 # 1)) None)
                    (mkWeatherData (Some (70 # 1)) (Some (975 # 1)) (Some (2 # 1)))
  /\ getWeatherPriority (mkWeatherData (Some (70 # 1)) (Some (1005 # 1)) None) = "high"%string
  /\ getWeatherPriority (mkWeatherData (Some (70 # 1)) (Some (975 # 1)) (Some (2 # 1))) = "critical"%string
  /\ (priority_level
        (getWeatherPriority (mkWeatherData (Some (70 # 1)) (Some (1005 # 1)) None))
      <= priority_level
           (getWeatherPriority (mkWeatherData (Some (70 # 1)) (Some (975 # 1)) (Some (2 # 1)))))%nat.
Proof.
  assert (Hrough : at_least_as_rough (mkWeatherData (Some (70 # 1)) (Some (1005 # 1)) None)
                                     (mkWeatherData (Some (70 # 1)) (Some (975 # 1)) (Some (2 # 1)))).
  { repeat split; cbn; unfold Qle; cbn; lia. }
  split; [exact Hrough|]. split; [reflexivity|]. split; [reflexivity|].
  exact (proj1 (weather_priority_monotone _ _ Hrough)).
Defined.

End WeatherPriority.
